(** * Hybrid retrieval router of [scripts/hybrid_rag.py]

    A shallow embedding of the class [FastHybridRAG]: template matching by
    embedding similarity ([find_best_template]), the query executor
    ([execute_cypher]), the router ([query]) and the answer formatter
    ([_format_results]), followed by the properties of the router.

    Conventions of the model.
    - A Python [str] is a Rocq [string]; every character stands for one code
      point in the range 0..255.
    - Similarity scores and thresholds are rationals; the scores produced by
      [cosine_similarity] are finite single-precision numbers and
      [np.argmax] only uses their order.  In
      [similarity >= similarity_threshold] the score is a NumPy [float32] and
      the threshold a Python [float]: NumPy (version 2) makes the comparison
      in single precision, after rounding the threshold to it.
    - An exception is represented by the text [str(e)] it carries;
      [sys.exit], which the set-up of the embeddings calls when it fails, is
      kept apart from the exceptions that [except Exception] catches.
    - Calls that leave the process ([session.run], [llm.invoke]) are logged
      in a trace of events; [print] output is not modelled. *)

From Stdlib Require Import String Ascii List ZArith QArith Qround Qpower Lia Lqa Bool
  DecimalString.
Import ListNotations.

Local Open Scope list_scope.
Local Open Scope string_scope.

(** ** Python runtime: text *)

Module PyText.

Local Open Scope nat_scope.

Definition nl : string := String (ascii_of_nat 10) EmptyString.

(** [str(n)] for a non-negative integer. *)
Definition str_of_nat (n : nat) : string :=
  NilZero.string_of_uint (Nat.to_uint n).

(** [str(z)] for an integer. *)
Definition str_of_Z (z : Z) : string :=
  NilZero.string_of_int (Z.to_int z).

(** [sep.join(parts)]. *)
Definition join (sep : string) (parts : list string) : string :=
  String.concat sep parts.

(** [c.isspace()] for a code point below 256. *)
Definition isspace (c : ascii) : bool :=
  let n := nat_of_ascii c in
  ((9 <=? n) && (n <=? 13)) || ((28 <=? n) && (n <=? 32))
  || (n =? 133) || (n =? 160).

Fixpoint lstrip (s : string) : string :=
  match s with
  | EmptyString => EmptyString
  | String c s' => if isspace c then lstrip s' else s
  end.

(** Removes trailing white space: a character is kept when it is not white
    space or when something is kept after it. *)
Fixpoint rstrip (s : string) : string :=
  match s with
  | EmptyString => EmptyString
  | String c s' =>
      match rstrip s' with
      | EmptyString => if isspace c then EmptyString else String c EmptyString
      | rest => String c rest
      end
  end.

(** [s.strip()]. *)
Definition strip (s : string) : string := rstrip (lstrip s).

Fixpoint contains_char (c : ascii) (s : string) : bool :=
  match s with
  | EmptyString => false
  | String d s' => Ascii.eqb c d || contains_char c s'
  end.

Definition hex_digit (n : nat) : ascii :=
  match get n "0123456789abcdef" with
  | Some c => c
  | None => "0"%char
  end.

(** The escape [\xhh] of a code point. *)
Definition hex_escape (c : ascii) : string :=
  let n := nat_of_ascii c in
  String "\"%char
    (String "x"%char
       (String (hex_digit (n / 16)) (String (hex_digit (n mod 16)) EmptyString))).

(** [c.isprintable()] for a code point below 256. *)
Definition isprintable (c : ascii) : bool :=
  let n := nat_of_ascii c in
  ((32 <=? n) && (n <=? 126)) || ((161 <=? n) && negb (n =? 173)).

Definition squote : ascii := "'"%char.
Definition dquote : ascii := ascii_of_nat 34.
Definition backslash : ascii := "\"%char.

Definition repr_char (quote c : ascii) : string :=
  let n := nat_of_ascii c in
  if Ascii.eqb c quote || Ascii.eqb c backslash then
    String backslash (String c EmptyString)
  else if n =? 9 then String backslash "t"
  else if n =? 10 then String backslash "n"
  else if n =? 13 then String backslash "r"
  else if isprintable c then String c EmptyString
  else hex_escape c.

Fixpoint repr_body (quote : ascii) (s : string) : string :=
  match s with
  | EmptyString => EmptyString
  | String c s' => repr_char quote c ++ repr_body quote s'
  end.

(** [repr(s)] for a [str]: single quotes, unless the text has a single
    quote and no double quote. *)
Definition repr_str (s : string) : string :=
  let quote :=
    if contains_char squote s && negb (contains_char dquote s)
    then dquote else squote in
  String quote (repr_body quote s ++ String quote EmptyString).

(** Zero-padding of a number below 1000 to three digits. *)
Definition pad3 (n : nat) : string :=
  (if n <? 10 then "00" else if n <? 100 then "0" else "") ++ str_of_nat n.

(** Rounding of a non-negative fraction [a / d] to the nearest integer,
    ties to the even neighbour. *)
Definition round_half_even (a d : Z) : Z :=
  let fl := (a / d)%Z in
  let r := (a mod d)%Z in
  match (2 * r ?= d)%Z with
  | Lt => fl
  | Gt => (fl + 1)%Z
  | Eq => if Z.even fl then fl else (fl + 1)%Z
  end.

(** [f"{x:.3f}"]: three decimals, correctly rounded, the sign kept even
    when the digits are all zero. *)
Definition format_3f (x : Q) : string :=
  let n := Z.to_nat (round_half_even (Z.abs (Qnum x) * 1000) (Zpos (Qden x))) in
  (if (Qnum x <? 0)%Z then "-" else "")
    ++ str_of_nat (n / 1000) ++ "." ++ pad3 (n mod 1000).

(** [c.lower()] for a code point below 256: the letters A to Z and the
    accented capitals 192 to 222 (but the sign 215) move up by 32. *)
Definition lower_char (c : ascii) : ascii :=
  let n := nat_of_ascii c in
  if ((65 <=? n) && (n <=? 90)) || ((192 <=? n) && (n <=? 222) && negb (n =? 215))
  then ascii_of_nat (n + 32) else c.

(** [s.lower()]. *)
Fixpoint lower (s : string) : string :=
  match s with
  | EmptyString => EmptyString
  | String c s' => String (lower_char c) (lower s')
  end.

End PyText.

(** ** NumPy: a Python [float] taken to single precision *)

(** The nearest integer, the even one of the two when both are as near. *)
Definition round_nearest_even (x : Q) : Z :=
  let f := Qfloor x in
  match Qcompare (x - inject_Z f) (1 # 2) with
  | Lt => f
  | Gt => (f + 1)%Z
  | Eq => if Z.even f then f else (f + 1)%Z
  end.

(** For a positive number, the exponent [e] with [2^e <= x < 2^(e+1)]: it is
    the difference of the binary lengths of numerator and denominator, or
    one less. *)
Definition binade (x : Q) : Z :=
  let e0 := (Z.log2 (Qnum x) - Z.log2 (Zpos (Qden x)))%Z in
  if Qle_bool (2 ^ e0) x then e0 else (e0 - 1)%Z.

(** The exponent of the last of the 24 significant bits, which is never
    below -149, the exponent of the smallest subnormal number. *)
Definition ulp_exponent (x : Q) : Z := Z.max (binade x - 23) (-149).

Definition round_positive (x : Q) : Q :=
  let k := ulp_exponent x in
  inject_Z (round_nearest_even (x * 2 ^ (- k))) * 2 ^ k.

(** The [float32] nearest to a number, ties to the even significand.  A
    number beyond the range of [float32] would become an infinity; it is
    rounded to 24 bits all the same, which compares in the same way with
    every number of the range. *)
Definition float32_of (x : Q) : Q :=
  match Qnum x with
  | Z0 => 0
  | Zpos _ => round_positive x
  | Zneg _ => - round_positive (- x)
  end.

(** ** Data model *)

(** A value of a result row.  [VOther] stands for any other object the
    driver may hand back (a float, a date, a node): it is known by the texts
    [str(v)] and [repr(v)] only. *)
Inductive value : Type :=
| VNone
| VBool (b : bool)
| VInt (z : Z)
| VStr (s : string)
| VOther (str_text repr_text : string).

(** A Python [dict] with string keys: the entries in insertion order. *)
Definition dict (V : Type) : Type := list (string * V).

(** One record of a query result, [dict(record)]. *)
Definition row : Type := dict value.

(** [key in d]. *)
Definition dict_contains {V} (key : string) (d : dict V) : bool :=
  existsb (fun kv => String.eqb key (fst kv)) d.

(** [d.get(key)]. *)
Fixpoint dict_get {V} (key : string) (d : dict V) : option V :=
  match d with
  | [] => None
  | (k, v) :: d' => if String.eqb key k then Some v else dict_get key d'
  end.

(** [list(d.keys())]. *)
Definition dict_keys {V} (d : dict V) : list string := map fst d.

(** [d.values()]. *)
Definition dict_values {V} (d : dict V) : list V := map snd d.

Definition is_None (v : value) : bool :=
  match v with VNone => true | _ => false end.

(** [str(v)]. *)
Definition py_str (v : value) : string :=
  match v with
  | VNone => "None"
  | VBool true => "True"
  | VBool false => "False"
  | VInt z => PyText.str_of_Z z
  | VStr s => s
  | VOther str_text _ => str_text
  end.

(** [repr(v)]. *)
Definition py_repr (v : value) : string :=
  match v with
  | VStr s => PyText.repr_str s
  | VOther _ repr_text => repr_text
  | _ => py_str v
  end.

(** [repr(d)] for a row. *)
Definition repr_row (r : row) : string :=
  "{" ++ PyText.join ", "
           (map (fun kv => PyText.repr_str (fst kv) ++ ": " ++ py_repr (snd kv)) r)
      ++ "}".

(** [repr(results)], which is what an f-string prints for a list. *)
Definition repr_rows (rs : list row) : string :=
  "[" ++ PyText.join ", " (map repr_row rs) ++ "]".

(** One entry of [self.query_templates]. *)
Record template : Type := mkTemplate {
  cypher : string;
  description : string
}.

(** A field of the dictionary returned by [query]. *)
Inductive field : Type :=
| FNone
| FStr (s : string)
| FScore (q : Q)
| FRows (rs : list row).

Definition response : Type := dict field.

(** ** Effects: exceptions and the trace of external calls *)

Inductive event : Type :=
| EvRun (query_text : string)      (* a session is opened and runs the text *)
| EvInvoke (prompt : string).      (* self.llm.invoke(prompt) *)

Inductive outcome (A : Type) : Type :=
| Ok (a : A)
| Raised (msg : string).
Arguments Ok {A} a.
Arguments Raised {A} msg.

Definition M (A : Type) : Type := list event -> outcome A * list event.

Definition ret {A} (a : A) : M A := fun tr => (Ok a, tr).

Definition bind {A B} (m : M A) (f : A -> M B) : M B :=
  fun tr =>
    match m tr with
    | (Ok a, tr') => f a tr'
    | (Raised e, tr') => (Raised e, tr')
    end.

(** [try: body except Exception as e: handler]. *)
Definition try_except {A} (body : M A) (handler : string -> M A) : M A :=
  fun tr =>
    match body tr with
    | (Ok a, tr') => (Ok a, tr')
    | (Raised e, tr') => handler e tr'
    end.

(** A computation without external calls. *)
Definition lift {A} (o : outcome A) : M A := fun tr => (o, tr).

(** An external call: the event is logged, the capability answers. *)
Definition call {A} (ev : event) (o : outcome A) : M A :=
  fun tr => (o, (tr ++ [ev])%list).

Declare Scope py_scope.
Delimit Scope py_scope with py.
Notation "x <- m ;; k" := (bind m (fun x => k))
  (at level 61, m at next level, right associativity) : py_scope.
Notation "' pat <- m ;; k" := (bind m (fun x => match x with pat => k end))
  (at level 61, pat pattern, m at next level, right associativity) : py_scope.

(** How a step of the start-up ends: with a value, or with [sys.exit(code)].
    [SystemExit] is not an [Exception]: no handler of the program catches
    it. *)
Inductive startup (A : Type) : Type :=
| Started (a : A)
| SystemExit (code : Z).
Arguments Started {A} a.
Arguments SystemExit {A} code.

(** ** NumPy: [np.argmax] on a one-dimensional array *)

(** The scan keeps the index of the largest score seen so far and replaces it
    only by a strictly larger score, so the first occurrence of the maximum
    is the one returned. *)
Fixpoint argmax_from (best_idx : nat) (best : Q) (idx : nat) (scores : list Q) : nat :=
  match scores with
  | [] => best_idx
  | x :: rest =>
      if Qle_bool x best
      then argmax_from best_idx best (S idx) rest
      else argmax_from idx x (S idx) rest
  end.

(** [np.argmax(scores)]; an empty array raises [ValueError]. *)
Definition argmax (scores : list Q) : outcome nat :=
  match scores with
  | [] => Raised "attempt to get an argmax of an empty sequence"
  | x :: rest => Ok (argmax_from 0 x 1 rest)
  end.

(** [xs[i]], an [IndexError] when [i] is out of range. *)
Definition list_getitem {A} (xs : list A) (i : nat) : outcome A :=
  match nth_error xs i with
  | Some x => Ok x
  | None => Raised "list index out of range"
  end.

(** [d[key]], a [KeyError] when the key is absent ([str] of a [KeyError] is
    the [repr] of the key). *)
Definition dict_getitem {V} (d : dict V) (key : string) : outcome V :=
  match dict_get key d with
  | Some v => Ok v
  | None => Raised (PyText.repr_str key)
  end.

Definition obind {A B} (o : outcome A) (f : A -> outcome B) : outcome B :=
  match o with
  | Ok a => f a
  | Raised e => Raised e
  end.

(** ** The answer formatter *)

(** The body of the loop of [_format_results]: the line of one row is
    appended when the row is not empty and has a value other than [None]. *)
Definition append_line (formatted_lines : list string) (result : row) : list string :=
  match result with
  | [] => formatted_lines
  | _ =>
      let values := map py_str (filter (fun v => negb (is_None v)) (dict_values result)) in
      match values with
      | [] => formatted_lines
      | _ => (formatted_lines ++ [PyText.join " | " values])%list
      end
  end.

Definition display_limit : nat := 10.

Definition _format_results (question : string) (results : list row)
    (description : string) : string :=
  match results with
  | [] => "No results found."
  | first :: _ =>
      if existsb (dict_contains "error") results then
        "Error executing query: "
          ++ py_str (match dict_get "error" first with
                     | Some v => v
                     | None => VStr "Unknown error"
                     end)
      else
        let formatted_lines :=
          fold_left append_line (firstn display_limit results) [] in
        match formatted_lines with
        | [] => "Results found but no displayable data."
        | _ =>
            "Found " ++ PyText.str_of_nat (length results) ++ " result(s):"
              ++ PyText.nl ++ PyText.join PyText.nl formatted_lines
        end
  end.

(** ** The template catalog *)

Definition _setup_query_templates : dict template :=
  [ ("list all stakeholders",
     mkTemplate "MATCH (s:Stakeholder) RETURN s.name, s.department, s.email ORDER BY s.name"
                "Get all stakeholders with their details");
    ("who are the stakeholders",
     mkTemplate "MATCH (s:Stakeholder) RETURN s.name ORDER BY s.name"
                "Get stakeholder names");
    ("show stakeholder roles",
     mkTemplate "MATCH (s:Stakeholder)-[:PLAYS_ROLE]->(r:Role) RETURN s.name, r.name, r.responsibilities"
                "Get stakeholders and their roles");
    ("what are the goals",
     mkTemplate "MATCH (g:Goal) RETURN g.id, g.name, g.description ORDER BY g.name LIMIT 10"
                "Get project goals");
    ("show project constraints",
     mkTemplate "MATCH (c:Constraint) RETURN c.id, c.name, c.description ORDER BY c.name LIMIT 10"
                "Get project constraints");
    ("what are the requirements",
     mkTemplate "MATCH (g:Goal) RETURN g.name, g.description ORDER BY g.name"
                "Get project goals (requirements alternative)");
    ("what features exist",
     mkTemplate "MATCH (f:Feature) RETURN f.id, f.name, f.description ORDER BY f.name"
                "Get all features with descriptions");
    ("show all features",
     mkTemplate "MATCH (f:Feature) RETURN f.id, f.name, f.description ORDER BY f.name"
                "Get features list");
    ("what domain knowledge exists",
     mkTemplate "MATCH (dk:Domain_Knowledge) RETURN dk.area, dk.level, dk.description ORDER BY dk.area"
                "Get all domain knowledge areas");
    ("who has domain knowledge",
     mkTemplate "MATCH (s:Stakeholder)-[:HAS_DOMAIN_KNOWLEDGE]->(dk:Domain_Knowledge) RETURN s.name, dk.area, dk.level"
                "Get stakeholders and their domain expertise");
    ("authentication expertise",
     mkTemplate "MATCH (s:Stakeholder)-[:HAS_DOMAIN_KNOWLEDGE]->(dk:Domain_Knowledge) WHERE dk.area CONTAINS 'Authentication' RETURN s.name, dk.area, dk.level"
                "Find authentication experts");
    ("project information",
     mkTemplate "MATCH (p:Project) RETURN p.name, p.description, p.start_date, p.end_date"
                "Get project details");
    ("budget information",
     mkTemplate "MATCH (b:Budget) RETURN b.amount, b.currency, b.fiscal_year ORDER BY b.fiscal_year"
                "Get budget details");
    ("whats in the budget",
     mkTemplate "MATCH (b:Budget)-[:HAS_LINE_ITEM]->(li:Line_Item) RETURN b.amount as budget, li.description, li.amount, li.category ORDER BY li.amount DESC"
                "Get budget breakdown with line items");
    ("budget breakdown",
     mkTemplate "MATCH (li:Line_Item) RETURN li.description, li.amount, li.category ORDER BY li.amount DESC"
                "Get budget line items");
    ("requirements by stakeholder",
     mkTemplate "MATCH (s:Stakeholder)-[:RAISED_BY]-(r:Functional_Requirement) RETURN s.name, r.description"
                "Get requirements raised by each stakeholder");
    ("features satisfying requirements",
     mkTemplate "MATCH (r:Functional_Requirement)-[:SATISFIED_BY]->(f:Feature) RETURN r.description, f.name"
                "Get which features satisfy which requirements");
    ("quality scenarios",
     mkTemplate "MATCH (qs:Qual_Scenario) RETURN qs.scenario, qs.description ORDER BY qs.scenario"
                "Get all quality scenarios");
    ("what are the quality scenarios",
     mkTemplate "MATCH (qs:Qual_Scenario) RETURN qs.scenario, qs.description ORDER BY qs.scenario"
                "Get project quality scenarios");
    ("stakeholder expertise analysis",
     mkTemplate "MATCH (s:Stakeholder)-[:HAS_DOMAIN_KNOWLEDGE]->(dk:Domain_Knowledge) RETURN dk.area, count(s) as expert_count ORDER BY expert_count DESC"
                "Count experts per domain area");
    ("requirement complexity",
     mkTemplate "MATCH (r:Functional_Requirement)-[:REQUIRES_DOMAIN_KNOWLEDGE]->(dk:Domain_Knowledge) RETURN r.description, count(dk) as knowledge_areas_needed ORDER BY knowledge_areas_needed DESC"
                "Requirements by complexity (domain knowledge needed)") ].

(** ** The class [FastHybridRAG] *)

Section Router.

(** The vectors of the embedding model, and [cosine_similarity] of
    scikit-learn on two of them. *)
Variable embedding : Type.
Variable cosine_similarity : embedding -> embedding -> Q.

(** The attributes of an instance.  [embedding_model] is [encode] on one
    text; [graph] runs a query in a session of the driver and is [None]
    when the connection failed; [llm] is [None] when Ollama is not there. *)
Record FastHybridRAG : Type := mkRAG {
  model_name : string;
  embedding_model : string -> embedding;
  graph : option (string -> outcome (list row));
  neo4j_available : bool;
  llm : option (string -> outcome string);
  query_templates : dict template;
  template_embeddings : list embedding;
  template_keys : list string
}.

(** The object that [SentenceTransformer(...)] returns.  [encode_texts] is
    [encode] on the list of the template texts, made at start-up inside a
    [try]; [encode_question] is [encode([question])] of a query, which the
    source calls outside any handler and which is taken to return. *)
Record sentence_transformer : Type := mkModel {
  encode_texts : list string -> outcome (list embedding);
  encode_question : string -> embedding
}.

(** [_setup_embeddings]: the model is loaded ([load] is what
    [SentenceTransformer('all-MiniLM-L6-v2')] does), the keys are listed, the
    text of each key is built and the texts are encoded in one call; an
    exception of any of these steps is caught and the process exits with
    status 1.  The result is the model, [template_keys] and
    [template_embeddings]. *)
Definition _setup_embeddings (load : outcome sentence_transformer)
    (templates : dict template)
    : startup (sentence_transformer * list string * list embedding) :=
  let attempt :=
    obind load (fun model =>
    let keys := dict_keys templates in
    obind
      (fold_right
         (fun key acc =>
            obind (dict_getitem templates key) (fun t =>
            obind acc (fun texts => Ok ((key ++ " " ++ description t) :: texts))))
         (Ok []) keys)
      (fun template_texts =>
    obind (encode_texts model template_texts) (fun embeddings =>
    Ok (model, keys, embeddings)))) in
  match attempt with
  | Ok result => Started result
  | Raised _ => SystemExit 1
  end.

(** The constructor: the two connections either succeeded or failed, and
    the set-up of the embeddings may end the process. *)
Definition __init__ (name : string) (load : outcome sentence_transformer)
    (neo4j : option (string -> outcome (list row)))
    (ollama : option (string -> outcome string)) : startup FastHybridRAG :=
  let templates := _setup_query_templates in
  match _setup_embeddings load templates with
  | Started (model, keys, embeddings) =>
      Started {| model_name := name;
                 embedding_model := encode_question model;
                 graph := neo4j;
                 neo4j_available := match neo4j with Some _ => true | None => false end;
                 llm := ollama;
                 query_templates := templates;
                 template_embeddings := embeddings;
                 template_keys := keys |}
  | SystemExit code => SystemExit code
  end.

(** The default [0.5] of the two [threshold] parameters. *)
Definition default_threshold : Q := 1 # 2.

Definition find_best_template (self : FastHybridRAG) (question : string)
    (threshold : Q) : outcome (string * Q * template) :=
  let question_embedding := embedding_model self question in
  let similarities :=
    map (cosine_similarity question_embedding) (template_embeddings self) in
  obind (argmax similarities) (fun best_idx =>
  obind (list_getitem similarities best_idx) (fun best_similarity =>
  obind (list_getitem (template_keys self) best_idx) (fun best_template_key =>
  obind (dict_getitem (query_templates self) best_template_key) (fun best_template =>
  Ok (best_template_key, best_similarity, best_template))))).

Definition error_row (msg : string) : row := [("error", VStr msg)].

Definition execute_cypher (self : FastHybridRAG) (cypher_text : string)
    : M (list row) :=
  if negb (neo4j_available self) then
    ret [error_row "Neo4j not available"]
  else
    try_except
      (match graph self with
       | Some run => call (EvRun cypher_text) (run cypher_text)
       | None => lift (Raised "'NoneType' object has no attribute '_driver'")
       end)
      (fun e => ret [error_row ("Query execution failed: " ++ e)]).

Definition llm_prompt (question : string) : string :=
  "Write ONLY a Cypher query. No explanations or text." ++ PyText.nl
  ++ PyText.nl
  ++ "Question: " ++ question ++ PyText.nl
  ++ PyText.nl
  ++ "Schema: Project, Stakeholder, Role, Feature, Functional_Requirement, Domain_Knowledge, Qual_Scenario" ++ PyText.nl
  ++ "Relations: HAS_STAKEHOLDER, PLAYS_ROLE, HAS_DOMAIN_KNOWLEDGE, HAS_FUNCTIONAL_REQUIREMENT, RAISED_BY, SATISFIED_BY" ++ PyText.nl
  ++ PyText.nl
  ++ "Query:".

Local Open Scope py_scope.

Definition query (self : FastHybridRAG) (question : string)
    (similarity_threshold : Q) : M response :=
  '(template_key, similarity, template) <-
     lift (find_best_template self question default_threshold) ;;
  if Qle_bool (float32_of similarity_threshold) similarity then
    let cypher_text := cypher template in
    results <- execute_cypher self cypher_text ;;
    let answer :=
      match results with
      | _ :: _ =>
          if negb (existsb (dict_contains "error") results)
          then _format_results question results (description template)
          else "No results found or error: " ++ repr_rows results
      | [] => "No results found or error: " ++ repr_rows results
      end in
    ret [ ("question", FStr question);
          ("method", FStr "template");
          ("template_used", FStr template_key);
          ("similarity", FScore similarity);
          ("cypher", FStr cypher_text);
          ("results", FRows results);
          ("answer", FStr answer);
          ("execution_time", FStr "< 1 second") ]
  else
    match llm self with
    | Some invoke =>
        try_except
          (generated <- call (EvInvoke (llm_prompt question))
                             (invoke (llm_prompt question)) ;;
           let cypher_text := PyText.strip generated in
           results <- execute_cypher self cypher_text ;;
           let answer := _format_results question results "LLM generated query" in
           ret [ ("question", FStr question);
                 ("method", FStr "llm_fallback");
                 ("template_used", FNone);
                 ("similarity", FScore similarity);
                 ("cypher", FStr cypher_text);
                 ("results", FRows results);
                 ("answer", FStr answer);
                 ("execution_time", FStr "3-5 seconds") ])
          (fun e =>
             ret [ ("question", FStr question);
                   ("method", FStr "error");
                   ("error", FStr ("LLM fallback failed: " ++ e));
                   ("answer", FStr "Sorry, I couldn't process your question.") ])
    | None =>
        ret [ ("question", FStr question);
              ("method", FStr "no_match");
              ("template_used", FStr template_key);
              ("similarity", FScore similarity);
              ("answer",
               FStr ("No good template match (similarity: "
                       ++ PyText.format_3f similarity
                       ++ "). Try rephrasing your question or asking about: stakeholders, requirements, features, or domain knowledge.")) ]
    end.

(** [query(question)] with the default threshold of the signature. *)
Definition query_default (self : FastHybridRAG) (question : string) : M response :=
  query self question default_threshold.

Local Close Scope py_scope.

(** [list_available_queries]: the keys of the catalog. *)
Definition list_available_queries (self : FastHybridRAG) : list string :=
  dict_keys (query_templates self).

(** The invariant of an instance after construction: the keys are those of
    the catalog in insertion order (a [dict] has no repeated key), there is
    one embedding per key, and the catalog is not empty. *)
Definition well_formed (self : FastHybridRAG) : Prop :=
  template_keys self = dict_keys (query_templates self)
  /\ length (template_embeddings self) = length (template_keys self)
  /\ NoDup (template_keys self)
  /\ template_keys self <> [].

(** The similarity of a question to the template at one position. *)
Definition similarity_at (self : FastHybridRAG) (question : string) (i : nat)
    : option Q :=
  option_map (cosine_similarity (embedding_model self question))
             (nth_error (template_embeddings self) i).

(** The instance [__init__] returns on the catalog above, when the model was
    loaded and has encoded every text of the list as [encode] does. *)
Definition constructed (name : string) (encode : string -> embedding)
    (neo4j : option (string -> outcome (list row)))
    (ollama : option (string -> outcome string)) : FastHybridRAG :=
  {| model_name := name;
     embedding_model := encode;
     graph := neo4j;
     neo4j_available := match neo4j with Some _ => true | None => false end;
     llm := ollama;
     query_templates := _setup_query_templates;
     template_embeddings :=
       map (fun kv => encode (fst kv ++ " " ++ description (snd kv)))
           _setup_query_templates;
     template_keys := dict_keys _setup_query_templates |}.

End Router.

Arguments constructed {embedding}.
Arguments mkRAG {embedding}.
Arguments model_name {embedding}.
Arguments embedding_model {embedding}.
Arguments graph {embedding}.
Arguments neo4j_available {embedding}.
Arguments llm {embedding}.
Arguments query_templates {embedding}.
Arguments template_embeddings {embedding}.
Arguments template_keys {embedding}.
Arguments mkModel {embedding}.
Arguments encode_texts {embedding}.
Arguments encode_question {embedding}.
Arguments _setup_embeddings {embedding}.
Arguments __init__ {embedding}.
Arguments find_best_template {embedding}.
Arguments execute_cypher {embedding}.
Arguments query {embedding}.
Arguments query_default {embedding}.
Arguments list_available_queries {embedding}.
Arguments well_formed {embedding}.
Arguments similarity_at {embedding}.

(** ** The console: [interactive_session] and [main]

    What the console prints is not modelled, but the entries of a response
    that a [print] reads are looked up, since a missing entry raises.
    [KeyboardInterrupt] comes from outside the program and is not
    modelled. *)

(** One call of [input]: a typed line, or the end of the input, where
    [input] raises [EOFError]. *)
Inductive console : Type :=
| Typed (line : string)
| EndOfInput.

Definition input (c : console) : outcome string :=
  match c with
  | Typed line => Ok line
  | EndOfInput => Raised "EOF when reading a line"
  end.

(** How one round of the loop of the session ends. *)
Inductive loop_step : Type :=
| LoopContinue
| LoopBreak.

(** The session, or [main], came to its end, or waits for a line that the
    script of inputs does not have, or the process was left by
    [sys.exit]. *)
Inductive console_status : Type :=
| Finished
| AwaitingInput
| Exited (code : Z).

(** [print(f"... {result[key]}")]. *)
Definition print_entry (result : response) (key : string) : M unit :=
  bind (lift (dict_getitem result key)) (fun _ => ret tt).

(** [result['method'] == 'template']. *)
Definition is_template_method (method : field) : bool :=
  match method with
  | FStr s => String.eqb s "template"
  | _ => false
  end.

Definition sample_questions : list string :=
  [ "who are the stakeholders";
    "what are the requirements";
    "show all features";
    "what domain knowledge exists";
    "who has authentication expertise" ].

Section Console.

Variable embedding : Type.
Variable cosine_similarity : embedding -> embedding -> Q.

Local Open Scope py_scope.

(** The body of the [try] in the loop of [interactive_session]. *)
Definition session_body (self : FastHybridRAG embedding) (c : console)
    : M loop_step :=
  line <- lift (input c) ;;
  let question := PyText.strip line in
  if existsb (String.eqb (PyText.lower question)) ["quit"; "exit"; "q"] then
    ret LoopBreak
  else if String.eqb (PyText.lower question) "help" then
    ret LoopContinue
  else if String.eqb question "" then
    ret LoopContinue
  else
    result <- query_default cosine_similarity self question ;;
    _ <- print_entry result "answer" ;;
    method <- lift (dict_getitem result "method") ;;
    _ <- (if is_template_method method
          then print_entry result "template_used" else ret tt) ;;
    _ <- (if dict_contains "cypher" result
          then print_entry result "cypher" else ret tt) ;;
    ret LoopContinue.

(** [interactive_session] on a script of inputs: an exception of the body is
    caught and the loop goes on. *)
Fixpoint interactive_session (self : FastHybridRAG embedding)
    (inputs : list console) : M console_status :=
  match inputs with
  | [] => ret AwaitingInput
  | c :: rest =>
      step <- try_except (session_body self c) (fun _ => ret LoopContinue) ;;
      match step with
      | LoopBreak => ret Finished
      | LoopContinue => interactive_session self rest
      end
  end.

(** The loop of option 2 of [main]. *)
Fixpoint run_samples (rag : FastHybridRAG embedding) (questions : list string)
    : M unit :=
  match questions with
  | [] => ret tt
  | question :: rest =>
      result <- query_default cosine_similarity rag question ;;
      _ <- print_entry result "answer" ;;
      _ <- print_entry result "method" ;;
      run_samples rag rest
  end.

(** [main], given what the loading of the model and the two connections of
    the constructor do.  The constructor is called inside the [try]; when it
    leaves by [sys.exit], the handler, which is for [Exception], does not
    catch it and [main] is left as well. *)
Definition main (load : outcome (sentence_transformer embedding))
    (neo4j : option (string -> outcome (list row)))
    (ollama : option (string -> outcome string))
    (inputs : list console) : M console_status :=
  match __init__ "llama2" load neo4j ollama with
  | SystemExit code => ret (Exited code)
  | Started rag =>
      try_except
        (match inputs with
         | [] => ret AwaitingInput
         | c :: rest =>
             line <- lift (input c) ;;
             let choice := PyText.strip line in
             if String.eqb choice "1" then
               interactive_session rag rest
             else if String.eqb choice "2" then
               _ <- run_samples rag sample_questions ;;
               ret Finished
             else if String.eqb choice "3" then
               match rest with
               | [] => ret AwaitingInput
               | c' :: _ =>
                   question <- lift (input c') ;;
                   result <- query_default cosine_similarity rag question ;;
                   _ <- print_entry result "answer" ;;
                   _ <- print_entry result "method" ;;
                   _ <- (if dict_contains "cypher" result
                         then print_entry result "cypher" else ret tt) ;;
                   ret Finished
               end
             else
               ret Finished
         end)
        (fun _ => ret Finished)
  end.

Local Close Scope py_scope.

End Console.

Arguments session_body {embedding}.
Arguments interactive_session {embedding}.
Arguments run_samples {embedding}.
Arguments main {embedding}.

(** A line that ends the session. *)
Definition is_quit (c : console) : bool :=
  match c with
  | Typed line =>
      existsb (String.eqb (PyText.lower (PyText.strip line))) ["quit"; "exit"; "q"]
  | EndOfInput => false
  end.

(** A line on which the session does nothing but wait for the next one: the
    end of the input, a blank line, or the word help. *)
Definition is_idle (c : console) : bool :=
  match c with
  | Typed line =>
      negb (is_quit c)
      && (String.eqb (PyText.lower (PyText.strip line)) "help"
          || String.eqb (PyText.strip line) "")
  | EndOfInput => true
  end.

(** A line that the session passes to the router. *)
Definition is_question (c : console) : bool := negb (is_quit c) && negb (is_idle c).

(** [d.get(key, default)], as the callers of [query] read a response. *)
Definition dict_get_or {V} (key : string) (default : V) (d : dict V) : V :=
  match dict_get key d with
  | Some v => v
  | None => default
  end.

(** ** Reading a run of the router *)

(** The value of the [method] entry of a response. *)
Definition method_of (r : response) : option field := dict_get "method" r.

(** The result of a run took the template branch. *)
Definition takes_template_path (run : outcome response * list event) : Prop :=
  exists r tr, run = (Ok r, tr) /\ method_of r = Some (FStr "template").

(** The result of a run took one of the branches under [else]. *)
Definition takes_fallback_path (run : outcome response * list event) : Prop :=
  exists r tr,
    run = (Ok r, tr)
    /\ (method_of r = Some (FStr "llm_fallback")
        \/ method_of r = Some (FStr "error")
        \/ method_of r = Some (FStr "no_match")).

(** The graph store fails on a query text, with the message the executor
    reports and the events of the attempt: either there was no connection at
    start-up and nothing is sent, or the store raises on the text. *)
Inductive store_fails {embedding} (self : FastHybridRAG embedding) (text : string)
    : string -> list event -> Prop :=
| fails_unavailable :
    neo4j_available self = false ->
    store_fails self text "Neo4j not available" []
| fails_raised run msg :
    neo4j_available self = true ->
    graph self = Some run ->
    run text = Raised msg ->
    store_fails self text ("Query execution failed: " ++ msg) [EvRun text].

(** The rows whose line [_format_results] shows, and that line. *)
Definition displayable (result : row) : bool :=
  existsb (fun v => negb (is_None v)) (dict_values result).

Definition line_of (result : row) : string :=
  PyText.join " | "
    (map py_str (filter (fun v => negb (is_None v)) (dict_values result))).

(** [first_max scores i b]: position [i] holds [b], no score exceeds [b],
    and every score before position [i] is strictly below [b]. *)
Definition first_max (scores : list Q) (i : nat) (b : Q) : Prop :=
  nth_error scores i = Some b
  /\ (forall j y, nth_error scores j = Some y -> (y <= b)%Q)
  /\ (forall j y, (j < i)%nat -> nth_error scores j = Some y -> (y < b)%Q).

(** ** A small instance to run the model on

    The embedding of a text is the text; a template scores 1 when the
    question is a prefix of its text and 0 otherwise. *)

Definition toy_encode (text : string) : string := text.

Definition toy_similarity (question template_text : string) : Q :=
  if prefix question template_text then 1 else 0.

(** The same matcher with the score 0.7 of single precision, which is
    11744051 / 2^24, in the place of 1. *)
Definition toy_similarity_07 (question template_text : string) : Q :=
  if prefix question template_text then 11744051 # 16777216 else 0.

(** A store that answers every query with the given outcome. *)
Definition store_answering (o : outcome (list row)) : string -> outcome (list row) :=
  fun _ => o.

(** A generator that answers every prompt with the given outcome. *)
Definition llm_answering (o : outcome string) : string -> outcome string :=
  fun _ => o.

Definition toy_rag (neo4j : option (string -> outcome (list row)))
    (ollama : option (string -> outcome string)) : FastHybridRAG string :=
  constructed "llama2" toy_encode neo4j ollama.

(** Two questions: the first is the start of the text of exactly one
    template (the second of the catalog) and scores 1 with it; the second is
    the start of none and scores 0 with all. *)
Definition stakeholders_question : string := "who are the stakeholders".
Definition unknown_question : string := "zzz".

Definition stakeholders_template : template :=
  mkTemplate "MATCH (s:Stakeholder) RETURN s.name ORDER BY s.name"
             "Get stakeholder names".

Definition first_template : template :=
  mkTemplate "MATCH (s:Stakeholder) RETURN s.name, s.department, s.email ORDER BY s.name"
             "Get all stakeholders with their details".

(** Instances that differ in what the store and the generator do. *)
Definition rag_store_raises : FastHybridRAG string :=
  toy_rag (Some (store_answering (Raised "Invalid input 'RETURNS'")))
          (Some (llm_answering (Ok "MATCH (n) RETURNS n"))).

Definition rag_store_empty : FastHybridRAG string :=
  toy_rag (Some (store_answering (Ok [])))
          (Some (llm_answering (Ok "MATCH (n:Nothing) RETURN n"))).

Definition two_names : list row :=
  [ [("s.name", VStr "Ann"); ("s.age", VInt 41)];
    [("s.name", VStr "Bob"); ("s.age", VNone)] ].

Definition rag_store_two_names : FastHybridRAG string :=
  toy_rag (Some (store_answering (Ok two_names)))
          (Some (llm_answering (Ok (" MATCH (s:Stakeholder) RETURN s.name, s.age" ++ PyText.nl)))).

Definition rag_store_null_row : FastHybridRAG string :=
  toy_rag (Some (store_answering (Ok [[("s.email", VNone)]]))) None.

Definition error_column_rows : list row :=
  [ [("task", VStr "deploy"); ("error", VStr "none so far")] ].

Definition rag_store_error_column : FastHybridRAG string :=
  toy_rag (Some (store_answering (Ok error_column_rows))) None.

Definition rag_generator_raises : FastHybridRAG string :=
  toy_rag (Some (store_answering (Ok two_names)))
          (Some (llm_answering (Raised "connection refused"))).

Definition rag_alone : FastHybridRAG string := toy_rag None None.

(** Eleven rows of which only the last has a column named error. *)
Definition eleven_rows : list row :=
  (repeat [("n", VInt 1)] 10 ++ [[("n", VInt 2); ("error", VStr "late")]])%list.

(** Twelve rows and thirteen rows that start with the same ten. *)
Definition twelve_rows (last : Z) : list row :=
  (repeat [("n", VInt 1)] 10 ++ [[("n", VInt 7)]; [("n", VInt last)]])%list.

Definition rag_store_only : FastHybridRAG string :=
  toy_rag (Some (store_answering (Ok two_names))) None.

(** A catalog of two entries. *)
Definition small_catalog : dict template :=
  [ ("list all stakeholders", mkTemplate "Q1" "Get all stakeholders");
    ("show all features", mkTemplate "Q2" "Get features list") ].

(** The texts that are embedded, in the order of the catalog. *)
Definition template_texts (templates : dict template) : list string :=
  map (fun kv => fst kv ++ " " ++ description (snd kv)) templates.

(** The toy model: it loads, and encodes a list text by text. *)
Definition toy_model : sentence_transformer string :=
  mkModel (fun texts => Ok (map toy_encode texts)) toy_encode.

(** A model whose [encode] raises on the list of the template texts. *)
Definition broken_model : sentence_transformer string :=
  mkModel (fun _ => Raised "CUDA out of memory") toy_encode.

(** A decidable test that a list of keys has no repetition. *)
Fixpoint distinct (keys : list string) : bool :=
  match keys with
  | [] => true
  | k :: rest => negb (existsb (String.eqb k) rest) && distinct rest
  end.

(** * Properties *)

(** ** Rounding to single precision *)

Lemma rne_bounds (x : Q) :
  (Qfloor x <= round_nearest_even x <= Qfloor x + 1)%Z.
Proof.
  unfold round_nearest_even.
  destruct (Qcompare (x - inject_Z (Qfloor x)) (1 # 2)); [| lia | lia].
  destruct (Z.even (Qfloor x)); lia.
Qed.

Lemma rne_monotone (x y : Q) :
  x <= y -> (round_nearest_even x <= round_nearest_even y)%Z.
Proof.
  intros Hxy.
  pose proof (Qfloor_resp_le x y Hxy) as Hf.
  pose proof (rne_bounds x) as Hx. pose proof (rne_bounds y) as Hy.
  destruct (Z.eq_dec (Qfloor x) (Qfloor y)) as [Heq | Hne]; [| lia].
  unfold round_nearest_even in *. rewrite <- Heq in *.
  destruct (Qcompare_spec (x - inject_Z (Qfloor x)) (1 # 2)) as [Ex | Lx | Gx];
    destruct (Qcompare_spec (y - inject_Z (Qfloor x)) (1 # 2)) as [Ey | Ly | Gy];
    try lia; try (destruct (Z.even (Qfloor x)); lia); exfalso; lra.
Qed.

Lemma rne_above (x : Q) (n : Z) :
  inject_Z n <= x -> (n <= round_nearest_even x)%Z.
Proof.
  intros H. pose proof (Qfloor_resp_le _ _ H) as Hf. rewrite Qfloor_Z in Hf.
  pose proof (rne_bounds x). lia.
Qed.

Lemma rne_below (x : Q) (n : Z) :
  x <= inject_Z n -> (round_nearest_even x <= n)%Z.
Proof.
  intros H. pose proof (Qfloor_resp_le _ _ H) as Hf. rewrite Qfloor_Z in Hf.
  pose proof (rne_bounds x) as Hb.
  destruct (Z.eq_dec (Qfloor x) n) as [Heq | Hne]; [| lia].
  unfold round_nearest_even. rewrite Heq.
  pose proof (Qfloor_le x) as Hle. rewrite Heq in Hle.
  destruct (Qcompare_spec (x - inject_Z n) (1 # 2)) as [E | L | G];
    try lia; exfalso; lra.
Qed.

Lemma two_pow_pos (k : Z) : 0 < 2 ^ k.
Proof. apply Qpower_0_lt. reflexivity. Qed.

Lemma two_pow_add (a b : Z) : 2 ^ (a + b) == 2 ^ a * 2 ^ b.
Proof. apply Qpower_plus. discriminate. Qed.

Lemma two_pow_le (a b : Z) : (a <= b)%Z -> 2 ^ a <= 2 ^ b.
Proof. intros H. apply Qpower_le_compat_l; [exact H | discriminate]. Qed.

Lemma log2_bounds (n : Z) :
  (0 < n)%Z -> 2 ^ Z.log2 n <= inject_Z n /\ inject_Z n < 2 ^ (Z.log2 n + 1).
Proof.
  intros Hn. destruct (Z.log2_spec n Hn) as [Hlo Hhi].
  pose proof (Z.log2_nonneg n) as Hnn.
  split.
  - rewrite <- (Zpower_Qpower 2 (Z.log2 n) Hnn). rewrite <- Zle_Qle. exact Hlo.
  - rewrite <- (Zpower_Qpower 2 (Z.log2 n + 1)) by lia.
    rewrite <- Zlt_Qlt. exact Hhi.
Qed.

Lemma binade_spec (x : Q) :
  0 < x -> 2 ^ binade x <= x /\ x < 2 ^ (binade x + 1).
Proof.
  intros Hx. destruct x as [n d].
  assert (Hn : (0 < n)%Z) by (unfold Qlt in Hx; simpl in Hx; lia).
  destruct (log2_bounds n Hn) as [Hnlo Hnhi].
  destruct (log2_bounds (Zpos d) eq_refl) as [Hdlo Hdhi].
  set (ln := Z.log2 n) in *. set (ld := Z.log2 (Zpos d)) in *.
  assert (Hxd : (n # d) * inject_Z (Zpos d) == inject_Z n).
  { unfold Qeq, Qmult, inject_Z. simpl. lia. }
  assert (Hup : n # d < 2 ^ (ln - ld + 1)).
  { replace (ln - ld + 1)%Z with ((ln + 1) + - ld)%Z by lia.
    rewrite two_pow_add, Qpower_opp.
    apply Qlt_shift_div_l; [apply two_pow_pos |].
    apply Qle_lt_trans with ((n # d) * inject_Z (Zpos d)).
    - apply Qmult_le_l; [exact Hx | exact Hdlo].
    - rewrite Hxd. exact Hnhi. }
  assert (Hlow : 2 ^ (ln - ld - 1) <= n # d).
  { replace (ln - ld - 1)%Z with (ln + - (ld + 1))%Z by lia.
    rewrite two_pow_add, Qpower_opp.
    apply Qle_shift_div_r; [apply two_pow_pos |].
    apply Qle_trans with ((n # d) * inject_Z (Zpos d)).
    - rewrite Hxd. exact Hnlo.
    - apply Qmult_le_l; [exact Hx | apply Qlt_le_weak; exact Hdhi]. }
  unfold binade. cbn [Qnum Qden]. fold ln ld.
  destruct (Qle_bool (2 ^ (ln - ld)) (n # d)) eqn:Htest.
  - split; [apply Qle_bool_iff; exact Htest | exact Hup].
  - split; [exact Hlow |].
    replace (ln - ld - 1 + 1)%Z with (ln - ld)%Z by lia.
    apply Qnot_le_lt. intro Hle. apply Qle_bool_iff in Hle. congruence.
Qed.

Lemma binade_monotone (x y : Q) :
  0 < x -> x <= y -> (binade x <= binade y)%Z.
Proof.
  intros Hx Hxy.
  assert (Hy : 0 < y) by (apply Qlt_le_trans with x; assumption).
  destruct (binade_spec x Hx) as [Hxlo _].
  destruct (binade_spec y Hy) as [_ Hyhi].
  assert (Hlt : 2 ^ binade x < 2 ^ (binade y + 1)).
  { apply Qle_lt_trans with x; [exact Hxlo |].
    apply Qle_lt_trans with y; assumption. }
  apply Qpower_lt_compat_l_inv in Hlt; [lia | reflexivity].
Qed.

Lemma round_positive_nonneg (x : Q) : 0 < x -> 0 <= round_positive x.
Proof.
  intros Hx. unfold round_positive.
  apply Qmult_le_0_compat; [| apply Qlt_le_weak, two_pow_pos].
  change 0 with (inject_Z 0). rewrite <- Zle_Qle.
  apply rne_above. simpl.
  apply Qmult_le_0_compat; apply Qlt_le_weak; [exact Hx | apply two_pow_pos].
Qed.

Lemma scaled_by_ulp (k : Z) : 2 ^ k * 2 ^ (- k) == 1.
Proof. rewrite <- two_pow_add. replace (k + - k)%Z with 0%Z by lia. reflexivity. Qed.

Lemma round_positive_monotone (x y : Q) :
  0 < x -> x <= y -> round_positive x <= round_positive y.
Proof.
  intros Hx Hxy.
  assert (Hy : 0 < y) by (apply Qlt_le_trans with x; assumption).
  pose proof (binade_monotone x y Hx Hxy) as Hb.
  unfold round_positive, ulp_exponent.
  set (kx := Z.max (binade x - 23) (-149)).
  set (ky := Z.max (binade y - 23) (-149)).
  destruct (Z.eq_dec kx ky) as [Heq | Hne].
  - rewrite <- Heq.
    apply Qmult_le_compat_r; [| apply Qlt_le_weak, two_pow_pos].
    rewrite <- Zle_Qle. apply rne_monotone.
    apply Qmult_le_compat_r; [exact Hxy | apply Qlt_le_weak, two_pow_pos].
  - assert (Hk : (binade x + 1 <= kx + 24 /\ kx + 24 <= ky + 23
                  /\ ky + 23 = binade y)%Z) by lia.
    destruct Hk as (Hk1 & Hk2 & Hk3).
    destruct (binade_spec x Hx) as [_ Hxhi].
    destruct (binade_spec y Hy) as [Hylo _].
    apply Qle_trans with (2 ^ (ky + 23)).
    + apply Qle_trans with (2 ^ (kx + 24)); [| apply two_pow_le; exact Hk2].
      rewrite (Z.add_comm kx 24), two_pow_add.
      apply Qmult_le_compat_r; [| apply Qlt_le_weak, two_pow_pos].
      change (2 ^ 24) with (inject_Z (2 ^ 24)).
      rewrite <- Zle_Qle. apply rne_below.
      change (inject_Z (2 ^ 24)) with (2 ^ 24).
      setoid_replace (2 ^ 24) with (2 ^ (kx + 24) * 2 ^ (- kx))
        by (rewrite <- two_pow_add; replace (kx + 24 + - kx)%Z with 24%Z by lia;
            reflexivity).
      apply Qmult_le_compat_r; [| apply Qlt_le_weak, two_pow_pos].
      apply Qlt_le_weak. apply Qlt_le_trans with (2 ^ (binade x + 1));
        [exact Hxhi | apply two_pow_le; exact Hk1].
    + rewrite (Z.add_comm ky 23), two_pow_add.
      apply Qmult_le_compat_r; [| apply Qlt_le_weak, two_pow_pos].
      change (2 ^ 23) with (inject_Z (2 ^ 23)).
      rewrite <- Zle_Qle. apply rne_above.
      change (inject_Z (2 ^ 23)) with (2 ^ 23).
      setoid_replace (2 ^ 23) with (2 ^ (ky + 23) * 2 ^ (- ky))
        by (rewrite <- two_pow_add; replace (ky + 23 + - ky)%Z with 23%Z by lia;
            reflexivity).
      apply Qmult_le_compat_r; [| apply Qlt_le_weak, two_pow_pos].
      rewrite Hk3. exact Hylo.
Qed.

Lemma Qnum_pos (x : Q) (p : positive) : Qnum x = Zpos p -> 0 < x.
Proof. intros H. unfold Qlt. simpl. rewrite H. lia. Qed.

Lemma Qnum_neg (x : Q) (p : positive) : Qnum x = Zneg p -> 0 < - x.
Proof. intros H. unfold Qlt. simpl. rewrite H. lia. Qed.

Lemma Qnum_zero (x : Q) : Qnum x = 0%Z -> x == 0.
Proof. intros H. unfold Qeq. simpl. rewrite H. reflexivity. Qed.

(** Rounding to single precision keeps the order. *)
Lemma float32_of_monotone (x y : Q) : x <= y -> float32_of x <= float32_of y.
Proof.
  intros Hxy. unfold float32_of.
  destruct (Qnum x) as [| px | px] eqn:Hnx; destruct (Qnum y) as [| py | py] eqn:Hny.
  - apply Qle_refl.
  - apply round_positive_nonneg. eapply Qnum_pos; eassumption.
  - exfalso. pose proof (Qnum_zero x Hnx). pose proof (Qnum_neg y py Hny). lra.
  - exfalso. pose proof (Qnum_pos x px Hnx). pose proof (Qnum_zero y Hny). lra.
  - apply round_positive_monotone; [eapply Qnum_pos; eassumption | exact Hxy].
  - exfalso. pose proof (Qnum_pos x px Hnx). pose proof (Qnum_neg y py Hny). lra.
  - pose proof (round_positive_nonneg (- x) (Qnum_neg x px Hnx)). lra.
  - pose proof (round_positive_nonneg (- x) (Qnum_neg x px Hnx)).
    pose proof (round_positive_nonneg y (Qnum_pos y py Hny)). lra.
  - pose proof (round_positive_monotone (- y) (- x) (Qnum_neg y py Hny)) as H.
    assert (Hop : - y <= - x) by lra. specialize (H Hop). lra.
Qed.

(** ** Construction *)

Lemma distinct_NoDup (keys : list string) : distinct keys = true -> NoDup keys.
Proof.
  induction keys as [| k rest IH]; simpl; intro H.
  - constructor.
  - apply andb_prop in H as [Hk Hrest]. constructor; [| auto].
    intro Hin. apply negb_true_iff in Hk.
    assert (existsb (String.eqb k) rest = true); [| congruence].
    apply existsb_exists. exists k. split; [assumption | apply String.eqb_refl].
Qed.

Lemma constructed_well_formed {embedding} name (encode : string -> embedding)
    neo4j ollama :
  well_formed (constructed name encode neo4j ollama).
Proof.
  unfold well_formed.
  split; [reflexivity |].
  split; [reflexivity |].
  split; [apply distinct_NoDup; reflexivity | discriminate].
Qed.

(** ** The first maximum of a list of scores *)

Lemma first_max_keep (pre : list Q) (i : nat) (b x : Q) :
  first_max pre i b -> (x <= b)%Q -> first_max (pre ++ [x])%list i b.
Proof.
  intros (Hi & Hle & Hlt) Hx.
  assert (Hlen : (i < length pre)%nat) by (apply nth_error_Some; congruence).
  repeat split.
  - rewrite nth_error_app1; assumption.
  - intros j y Hj.
    destruct (Nat.lt_ge_cases j (length pre)) as [Hin | Hout].
    + rewrite nth_error_app1 in Hj by assumption. eauto.
    + rewrite nth_error_app2 in Hj by assumption.
      destruct (j - length pre)%nat as [| [| n]]; simpl in Hj; try discriminate.
      injection Hj as <-. assumption.
  - intros j y Hji Hj.
    rewrite nth_error_app1 in Hj by lia. eauto.
Qed.

Lemma first_max_replace (pre : list Q) (i : nat) (b x : Q) :
  first_max pre i b -> (b < x)%Q -> first_max (pre ++ [x])%list (length pre) x.
Proof.
  intros (Hi & Hle & Hlt) Hx.
  repeat split.
  - rewrite nth_error_app2 by lia. rewrite Nat.sub_diag. reflexivity.
  - intros j y Hj.
    destruct (Nat.lt_ge_cases j (length pre)) as [Hin | Hout].
    + rewrite nth_error_app1 in Hj by assumption.
      apply Qlt_le_weak. apply Qle_lt_trans with b; eauto.
    + rewrite nth_error_app2 in Hj by assumption.
      destruct (j - length pre)%nat as [| [| n]]; simpl in Hj; try discriminate.
      injection Hj as <-. apply Qle_refl.
  - intros j y Hjl Hj.
    rewrite nth_error_app1 in Hj by assumption.
    apply Qle_lt_trans with b; eauto.
Qed.

Lemma argmax_from_first_max (rest pre : list Q) (i : nat) (b : Q) :
  first_max pre i b ->
  exists b', first_max (pre ++ rest)%list (argmax_from i b (length pre) rest) b'.
Proof.
  revert pre i b.
  induction rest as [| x rest IH]; intros pre i b Hpre; simpl.
  - rewrite app_nil_r. exists b. assumption.
  - replace (pre ++ x :: rest)%list with ((pre ++ [x]) ++ rest)%list
      by (rewrite <- app_assoc; reflexivity).
    replace (S (length pre)) with (length (pre ++ [x])%list)
      by (rewrite length_app; simpl; lia).
    destruct (Qle_bool x b) eqn:Hcmp.
    + apply IH. apply first_max_keep; [assumption |].
      apply Qle_bool_iff. assumption.
    + apply IH. apply (first_max_replace pre i b x); [assumption |].
      apply Qnot_le_lt. intro Hle. apply Qle_bool_iff in Hle. congruence.
Qed.

Lemma argmax_first_max (scores : list Q) :
  scores <> [] -> exists i b, argmax scores = Ok i /\ first_max scores i b.
Proof.
  destruct scores as [| x rest]; [congruence | intros _].
  destruct (argmax_from_first_max rest [x] 0 x) as [b Hb].
  - repeat split.
    + intros [| [| j]] y Hj; simpl in Hj; try discriminate.
      injection Hj as <-. apply Qle_refl.
    + intros j y Hj. lia.
  - exists (argmax_from 0 x 1 rest), b. split; [reflexivity | exact Hb].
Qed.

Lemma dict_get_nth_error {V} (d : dict V) (i : nat) (k : string) (v : V) :
  NoDup (dict_keys d) -> nth_error d i = Some (k, v) -> dict_get k d = Some v.
Proof.
  revert i. induction d as [| [k0 v0] d IH]; intros i Hnd Hi.
  - destruct i; discriminate.
  - simpl. destruct i as [| i]; simpl in Hi.
    + injection Hi as -> ->. rewrite String.eqb_refl. reflexivity.
    + inversion Hnd as [| ? ? Hnotin Hnd']; subst.
      destruct (String.eqb k k0) eqn:Heq.
      * apply String.eqb_eq in Heq. subst k0. exfalso. apply Hnotin.
        change k with (fst (k, v)). apply in_map.
        eapply nth_error_In. eassumption.
      * eapply IH; eassumption.
Qed.

(** ** The matcher *)

Section Matcher.

Variable embedding : Type.
Variable cosine_similarity : embedding -> embedding -> Q.

Implicit Types (self : FastHybridRAG embedding) (question : string).

Lemma similarity_at_map self question i :
  nth_error
    (map (cosine_similarity (embedding_model self question)) (template_embeddings self)) i
  = similarity_at cosine_similarity self question i.
Proof. unfold similarity_at. apply nth_error_map. Qed.

(** On a well-formed instance the matcher returns, and what it returns is
    the catalog entry at the first maximum of the similarities. *)
Lemma find_best_template_returns self question threshold :
  well_formed self ->
  exists i key score tpl,
    find_best_template cosine_similarity self question threshold = Ok (key, score, tpl)
    /\ nth_error (query_templates self) i = Some (key, tpl)
    /\ first_max
         (map (cosine_similarity (embedding_model self question))
              (template_embeddings self)) i score.
Proof.
  intros (Hkeys & Hlen & Hnodup & Hne).
  unfold find_best_template.
  set (sims := map (cosine_similarity (embedding_model self question))
                   (template_embeddings self)).
  assert (Hsims : length sims = length (template_keys self))
    by (unfold sims; rewrite length_map; exact Hlen).
  destruct (argmax_first_max sims) as (i & score & Harg & Hmax).
  { intro Hnil. rewrite Hnil in Hsims. simpl in Hsims.
    destruct (template_keys self); [congruence | discriminate]. }
  pose proof Hmax as (Hi & _).
  assert (Hlt : (i < length (template_keys self))%nat)
    by (rewrite <- Hsims; apply nth_error_Some; congruence).
  destruct (nth_error (template_keys self) i) as [key |] eqn:Hkey;
    [| apply nth_error_None in Hkey; lia].
  assert (Hentry : exists tpl, nth_error (query_templates self) i = Some (key, tpl)).
  { rewrite Hkeys in Hkey. unfold dict_keys in Hkey.
    rewrite nth_error_map in Hkey.
    destruct (nth_error (query_templates self) i) as [[k t] |]; [| discriminate].
    simpl in Hkey. injection Hkey as ->. exists t. reflexivity. }
  destruct Hentry as (tpl & Hentry).
  exists i, key, score, tpl. split; [| split; assumption].
  rewrite Harg. simpl. unfold list_getitem. rewrite Hi. simpl.
  rewrite Hkey. simpl. unfold dict_getitem.
  rewrite (dict_get_nth_error (query_templates self) i key tpl);
    [reflexivity | rewrite <- Hkeys; assumption | assumption].
Qed.

(** C6: on a constructed instance, [find_best_template] returns the key and
    the template of one catalog position together with the similarity of the
    question to the embedding at that position; no template has a larger
    similarity, and every template earlier in the catalog has a strictly
    smaller one, so among templates that tie for the maximum the first
    inserted is returned. *)
Theorem C6_best_template_is_first_maximum self question threshold :
  well_formed self ->
  exists i key score tpl,
    find_best_template cosine_similarity self question threshold = Ok (key, score, tpl)
    /\ nth_error (template_keys self) i = Some key
    /\ nth_error (query_templates self) i = Some (key, tpl)
    /\ similarity_at cosine_similarity self question i = Some score
    /\ (forall j s, similarity_at cosine_similarity self question j = Some s ->
                    (s <= score)%Q)
    /\ (forall j s, (j < i)%nat ->
                    similarity_at cosine_similarity self question j = Some s ->
                    (s < score)%Q).
Proof.
  intros Hwf.
  destruct (find_best_template_returns self question threshold Hwf)
    as (i & key & score & tpl & Hret & Hentry & Hi & Hle & Hlt).
  exists i, key, score, tpl.
  destruct Hwf as (Hkeys & _).
  split; [exact Hret |]. split.
  { rewrite Hkeys. unfold dict_keys. rewrite nth_error_map, Hentry. reflexivity. }
  split; [exact Hentry |].
  split; [rewrite <- similarity_at_map; exact Hi |].
  split.
  - intros j s Hj. apply (Hle j). rewrite similarity_at_map. exact Hj.
  - intros j s Hji Hj. apply (Hlt j); [exact Hji |].
    rewrite similarity_at_map. exact Hj.
Qed.

(** C10: the [threshold] argument of [find_best_template] has no influence
    on the key, the score and the template it returns. *)
Theorem C10_find_best_template_ignores_threshold self question (t1 t2 : Q) :
  find_best_template cosine_similarity self question t1
  = find_best_template cosine_similarity self question t2.
Proof. reflexivity. Qed.

End Matcher.

(** ** The query executor *)

Section Executor.

Variable embedding : Type.
Implicit Types (self : FastHybridRAG embedding).

(** [execute_cypher] never raises; it sends at most the one query it was
    given to the store. *)
Lemma execute_cypher_returns self text tr :
  exists rows evs,
    execute_cypher self text tr = (Ok rows, (tr ++ evs)%list)
    /\ (evs = [] \/ evs = [EvRun text]).
Proof.
  unfold execute_cypher, try_except, call, lift, ret.
  destruct (neo4j_available self); simpl.
  - destruct (graph self) as [run |].
    + destruct (run text) as [rows | e]; eexists; exists [EvRun text]; eauto.
    + eexists; exists []; rewrite app_nil_r; eauto.
  - eexists; exists []; rewrite app_nil_r; eauto.
Qed.

(** The store answered with rows. *)
Lemma execute_cypher_rows self text tr run rows :
  neo4j_available self = true -> graph self = Some run -> run text = Ok rows ->
  execute_cypher self text tr = (Ok rows, (tr ++ [EvRun text])%list).
Proof.
  intros Ha Hg Hr. unfold execute_cypher, try_except, call.
  rewrite Ha, Hg, Hr. reflexivity.
Qed.

(** The store raised: one row with the message under the key [error]. *)
Lemma execute_cypher_rejected self text tr run msg :
  neo4j_available self = true -> graph self = Some run -> run text = Raised msg ->
  execute_cypher self text tr
  = (Ok [error_row ("Query execution failed: " ++ msg)], (tr ++ [EvRun text])%list).
Proof.
  intros Ha Hg Hr. unfold execute_cypher, try_except, call.
  rewrite Ha, Hg, Hr. reflexivity.
Qed.

(** No connection at start-up: nothing is sent. *)
Lemma execute_cypher_unavailable self text tr :
  neo4j_available self = false ->
  execute_cypher self text tr = (Ok [error_row "Neo4j not available"], tr).
Proof. intros Ha. unfold execute_cypher. rewrite Ha. reflexivity. Qed.

End Executor.

(** ** The branches of the router *)

Section Branches.

Variable embedding : Type.
Variable cosine_similarity : embedding -> embedding -> Q.

Implicit Types (self : FastHybridRAG embedding) (question : string).

(** The answer of the template branch. *)
Lemma query_template_branch self question threshold tr key score tpl rows tr' :
  find_best_template cosine_similarity self question default_threshold
    = Ok (key, score, tpl) ->
  Qle_bool (float32_of threshold) score = true ->
  execute_cypher self (cypher tpl) tr = (Ok rows, tr') ->
  query cosine_similarity self question threshold tr
  = (Ok [ ("question", FStr question);
          ("method", FStr "template");
          ("template_used", FStr key);
          ("similarity", FScore score);
          ("cypher", FStr (cypher tpl));
          ("results", FRows rows);
          ("answer",
           FStr (match rows with
                 | _ :: _ =>
                     if negb (existsb (dict_contains "error") rows)
                     then _format_results question rows (description tpl)
                     else "No results found or error: " ++ repr_rows rows
                 | [] => "No results found or error: " ++ repr_rows rows
                 end));
          ("execution_time", FStr "< 1 second") ], tr').
Proof.
  intros Hbest Hcmp Hexec. unfold query, bind, lift.
  rewrite Hbest, Hcmp, Hexec. reflexivity.
Qed.

(** The generator answered and its text was executed. *)
Lemma query_generated_branch self question threshold tr key score tpl
    invoke generated rows tr' :
  find_best_template cosine_similarity self question default_threshold
    = Ok (key, score, tpl) ->
  Qle_bool (float32_of threshold) score = false ->
  llm self = Some invoke ->
  invoke (llm_prompt question) = Ok generated ->
  execute_cypher self (PyText.strip generated)
                 (tr ++ [EvInvoke (llm_prompt question)])%list = (Ok rows, tr') ->
  query cosine_similarity self question threshold tr
  = (Ok [ ("question", FStr question);
          ("method", FStr "llm_fallback");
          ("template_used", FNone);
          ("similarity", FScore score);
          ("cypher", FStr (PyText.strip generated));
          ("results", FRows rows);
          ("answer", FStr (_format_results question rows "LLM generated query"));
          ("execution_time", FStr "3-5 seconds") ], tr').
Proof.
  intros Hbest Hcmp Hllm Hgen Hexec.
  unfold query, bind, lift, try_except, call.
  rewrite Hbest, Hcmp, Hllm, Hgen, Hexec. reflexivity.
Qed.

(** The generator raised. *)
Lemma query_generator_raised self question threshold tr key score tpl invoke msg :
  find_best_template cosine_similarity self question default_threshold
    = Ok (key, score, tpl) ->
  Qle_bool (float32_of threshold) score = false ->
  llm self = Some invoke ->
  invoke (llm_prompt question) = Raised msg ->
  query cosine_similarity self question threshold tr
  = (Ok [ ("question", FStr question);
          ("method", FStr "error");
          ("error", FStr ("LLM fallback failed: " ++ msg));
          ("answer", FStr "Sorry, I couldn't process your question.") ],
     (tr ++ [EvInvoke (llm_prompt question)])%list).
Proof.
  intros Hbest Hcmp Hllm Hgen.
  unfold query, bind, lift, try_except, call.
  rewrite Hbest, Hcmp, Hllm, Hgen. reflexivity.
Qed.

(** There is no generator. *)
Lemma query_no_generator self question threshold tr key score tpl :
  find_best_template cosine_similarity self question default_threshold
    = Ok (key, score, tpl) ->
  Qle_bool (float32_of threshold) score = false ->
  llm self = None ->
  query cosine_similarity self question threshold tr
  = (Ok [ ("question", FStr question);
          ("method", FStr "no_match");
          ("template_used", FStr key);
          ("similarity", FScore score);
          ("answer",
           FStr ("No good template match (similarity: "
                   ++ PyText.format_3f score
                   ++ "). Try rephrasing your question or asking about: stakeholders, requirements, features, or domain knowledge.")) ],
     tr).
Proof.
  intros Hbest Hcmp Hllm. unfold query, bind, lift.
  rewrite Hbest, Hcmp, Hllm. reflexivity.
Qed.

(** The matcher raised: the exception leaves [query]. *)
Lemma query_matcher_raised self question threshold tr msg :
  find_best_template cosine_similarity self question default_threshold = Raised msg ->
  query cosine_similarity self question threshold tr = (Raised msg, tr).
Proof. intros Hbest. unfold query, bind, lift. rewrite Hbest. reflexivity. Qed.

Lemma Qle_bool_false (x y : Q) : Qle_bool x y = false <-> (y < x)%Q.
Proof.
  split.
  - intro H. apply Qnot_le_lt. intro Hle. apply Qle_bool_iff in Hle. congruence.
  - intro H. destruct (Qle_bool x y) eqn:E; [| reflexivity].
    apply Qle_bool_iff in E. exfalso. exact (Qlt_not_le _ _ H E).
Qed.

End Branches.

(** ** The threshold policy *)

Section Threshold.

Variable embedding : Type.
Variable cosine_similarity : embedding -> embedding -> Q.

Implicit Types (self : FastHybridRAG embedding) (question : string).

(** Once the matcher has returned, the comparison alone picks the branch. *)
Lemma query_decides self question threshold tr key score tpl :
  find_best_template cosine_similarity self question default_threshold
    = Ok (key, score, tpl) ->
  (Qle_bool (float32_of threshold) score = true
   /\ takes_template_path (query cosine_similarity self question threshold tr))
  \/ (Qle_bool (float32_of threshold) score = false
      /\ takes_fallback_path (query cosine_similarity self question threshold tr)).
Proof.
  intros Hbest. destruct (Qle_bool (float32_of threshold) score) eqn:Hcmp; [left | right];
    (split; [reflexivity |]).
  - destruct (execute_cypher_returns embedding self (cypher tpl) tr)
      as (rows & evs & Hexec & _).
    rewrite (query_template_branch _ _ _ _ _ _ _ _ _ _ _ Hbest Hcmp Hexec).
    eexists _, _. split; reflexivity.
  - destruct (llm self) as [invoke |] eqn:Hllm.
    + destruct (invoke (llm_prompt question)) as [generated | msg] eqn:Hgen.
      * destruct (execute_cypher_returns embedding self (PyText.strip generated)
                    (tr ++ [EvInvoke (llm_prompt question)])%list)
          as (rows & evs & Hexec & _).
        rewrite (query_generated_branch _ _ _ _ _ _ _ _ _ _ _ _ _
                   Hbest Hcmp Hllm Hgen Hexec).
        eexists _, _. split; [reflexivity | left; reflexivity].
      * rewrite (query_generator_raised _ _ _ _ _ _ _ _ _ _ _ Hbest Hcmp Hllm Hgen).
        eexists _, _. split; [reflexivity | right; left; reflexivity].
    + rewrite (query_no_generator _ _ _ _ _ _ _ _ _ Hbest Hcmp Hllm).
      eexists _, _. split; [reflexivity | right; right; reflexivity].
Qed.

Lemma paths_exclusive (run : outcome response * list event) :
  takes_template_path run -> takes_fallback_path run -> False.
Proof.
  intros (r & tr & Hr & Hm) (r' & tr' & Hr' & Hm').
  rewrite Hr in Hr'. injection Hr' as <- <-.
  rewrite Hm in Hm'. destruct Hm' as [H | [H | H]]; discriminate.
Qed.

(** The comparison of [query], seen from the exact numbers: a score that is
    a [float32] and is at least the threshold passes it. *)
Lemma rounded_threshold_below (threshold score : Q) :
  (float32_of score == score)%Q ->
  (threshold <= score)%Q ->
  (float32_of threshold <= score)%Q.
Proof.
  intros Hrep Hle. rewrite <- Hrep. apply float32_of_monotone. exact Hle.
Qed.

Lemma query_routes self question threshold tr :
  well_formed self ->
  exists key score tpl r tr',
    find_best_template cosine_similarity self question default_threshold
      = Ok (key, score, tpl)
    /\ query cosine_similarity self question threshold tr = (Ok r, tr')
    /\ (method_of r = Some (FStr "template") <-> (float32_of threshold <= score)%Q)
    /\ ((float32_of threshold <= score)%Q ->
        exists rows,
          execute_cypher self (cypher tpl) tr = (Ok rows, tr')
          /\ dict_get "cypher" r = Some (FStr (cypher tpl))
          /\ dict_get "results" r = Some (FRows rows))
    /\ ((score < float32_of threshold)%Q ->
        takes_fallback_path (Ok r, tr')
        /\ exists evs,
             tr' = (tr ++ evs)%list
             /\ forall text, In (EvRun text) evs ->
                  exists invoke generated,
                    llm self = Some invoke
                    /\ invoke (llm_prompt question) = Ok generated
                    /\ text = PyText.strip generated).
Proof.
  intros Hwf.
  destruct (find_best_template_returns embedding cosine_similarity self question
              default_threshold Hwf) as (i & key & score & tpl & Hbest & _).
  exists key, score, tpl.
  destruct (Qle_bool (float32_of threshold) score) eqn:Hcmp.
  - assert (Hle : (float32_of threshold <= score)%Q) by (apply Qle_bool_iff; exact Hcmp).
    destruct (execute_cypher_returns embedding self (cypher tpl) tr)
      as (rows & evs & Hexec & _).
    eexists _, _. split; [exact Hbest |].
    split; [exact (query_template_branch _ _ _ _ _ _ _ _ _ _ _ Hbest Hcmp Hexec) |].
    split; [split; [intros _; exact Hle | intros _; reflexivity] |].
    split.
    + intros _. exists rows. repeat split. exact Hexec.
    + intros Hlt. exfalso. exact (Qlt_not_le _ _ Hlt Hle).
  - assert (Hlt : (score < float32_of threshold)%Q) by (apply Qle_bool_false; exact Hcmp).
    assert (Hnot : forall P : Prop, (float32_of threshold <= score)%Q -> P)
      by (intros P Hle; exfalso; exact (Qlt_not_le _ _ Hlt Hle)).
    destruct (llm self) as [invoke |] eqn:Hllm.
    + destruct (invoke (llm_prompt question)) as [generated | msg] eqn:Hgen.
      * destruct (execute_cypher_returns embedding self (PyText.strip generated)
                    (tr ++ [EvInvoke (llm_prompt question)])%list)
          as (rows & evs & Hexec & Hevs).
        eexists _, _. split; [exact Hbest |].
        split; [exact (query_generated_branch _ _ _ _ _ _ _ _ _ _ _ _ _
                         Hbest Hcmp Hllm Hgen Hexec) |].
        split; [split; [discriminate | apply Hnot] |].
        split; [apply Hnot |]. intros _. split.
        { eexists _, _. split; [reflexivity | left; reflexivity]. }
        exists (EvInvoke (llm_prompt question) :: evs). split.
        { rewrite <- app_assoc. reflexivity. }
        intros text [Hin | Hin]; [discriminate |].
        exists invoke, generated. repeat split; try assumption.
        destruct Hevs as [-> | ->]; simpl in Hin; [contradiction |].
        destruct Hin as [Hin | []]. injection Hin as <-. reflexivity.
      * eexists _, _. split; [exact Hbest |].
        split; [exact (query_generator_raised _ _ _ _ _ _ _ _ _ _ _
                         Hbest Hcmp Hllm Hgen) |].
        split; [split; [discriminate | apply Hnot] |].
        split; [apply Hnot |]. intros _. split.
        { eexists _, _. split; [reflexivity | right; left; reflexivity]. }
        exists [EvInvoke (llm_prompt question)]. split; [reflexivity |].
        intros text [Hin | []]. discriminate.
    + eexists _, _. split; [exact Hbest |].
      split; [exact (query_no_generator _ _ _ _ _ _ _ _ _ Hbest Hcmp Hllm) |].
      split; [split; [discriminate | apply Hnot] |].
      split; [apply Hnot |]. intros _. split.
      { eexists _, _. split; [reflexivity | right; right; reflexivity]. }
      exists []. split; [rewrite app_nil_r; reflexivity |].
      intros text [].
Qed.


(** C1, amended: on a constructed instance [query] returns a response, and
    its method is "template" exactly when the score of the best match is at
    least the threshold taken to single precision, the precision of the
    score; so a score that is at least the threshold always takes the
    template path.  On that path the text sent to the executor is the query
    of the matched template, and the response carries that text and the rows
    the executor returned.  When the score is below the rounded threshold
    one of the branches under [else] is taken, and any query sent to the
    store is the text the generator produced.  A call without a threshold
    uses 1/2, which rounding leaves as it is. *)
Theorem C1_template_path_iff_score_reaches_threshold self question threshold tr :
  well_formed self ->
  query_default cosine_similarity self question tr
    = query cosine_similarity self question (1 # 2) tr
  /\ (float32_of (1 # 2) == 1 # 2)%Q
  /\ exists key score tpl r tr',
    find_best_template cosine_similarity self question default_threshold
      = Ok (key, score, tpl)
    /\ query cosine_similarity self question threshold tr = (Ok r, tr')
    /\ (method_of r = Some (FStr "template") <-> (float32_of threshold <= score)%Q)
    /\ ((float32_of threshold <= score)%Q ->
        exists rows,
          execute_cypher self (cypher tpl) tr = (Ok rows, tr')
          /\ dict_get "cypher" r = Some (FStr (cypher tpl))
          /\ dict_get "results" r = Some (FRows rows))
    /\ ((score < float32_of threshold)%Q ->
        takes_fallback_path (Ok r, tr')
        /\ exists evs,
             tr' = (tr ++ evs)%list
             /\ forall text, In (EvRun text) evs ->
                  exists invoke generated,
                    llm self = Some invoke
                    /\ invoke (llm_prompt question) = Ok generated
                    /\ text = PyText.strip generated)
    /\ ((float32_of score == score)%Q -> (threshold <= score)%Q ->
        method_of r = Some (FStr "template")).
Proof.
  intros Hwf. split; [reflexivity |]. split; [reflexivity |].
  destruct (query_routes self question threshold tr Hwf)
    as (key & score & tpl & r & tr' & Hbest & Hrun & Hiff & Htpl & Hfb).
  exists key, score, tpl, r, tr'.
  split; [exact Hbest |]. split; [exact Hrun |]. split; [exact Hiff |].
  split; [exact Htpl |]. split; [exact Hfb |].
  intros Hrep Hle. apply Hiff. apply rounded_threshold_below; assumption.
Qed.

(** C7: for one instance and one question, raising the threshold keeps a
    question of the fallback path on the fallback path, and lowering it
    keeps a question of the template path on the template path. *)
Theorem C7_path_monotone_in_threshold self question (t1 t2 : Q) tr :
  (t1 <= t2)%Q ->
  (takes_fallback_path (query cosine_similarity self question t1 tr) ->
   takes_fallback_path (query cosine_similarity self question t2 tr))
  /\ (takes_template_path (query cosine_similarity self question t2 tr) ->
      takes_template_path (query cosine_similarity self question t1 tr)).
Proof.
  intros Hle.
  destruct (find_best_template cosine_similarity self question default_threshold)
    as [[[key score] tpl] | msg] eqn:Hbest.
  - destruct (query_decides self question t1 tr key score tpl Hbest)
      as [[Hc1 Hp1] | [Hc1 Hp1]];
    destruct (query_decides self question t2 tr key score tpl Hbest)
      as [[Hc2 Hp2] | [Hc2 Hp2]].
    + split; intro H; [exfalso; exact (paths_exclusive _ Hp1 H) | exact Hp1].
    + split; intro H; [exact Hp2 | exact Hp1].
    + exfalso. apply Qle_bool_iff in Hc2. apply Qle_bool_false in Hc1.
      apply (Qlt_not_le _ _ Hc1).
      apply Qle_trans with (float32_of t2);
        [apply float32_of_monotone; exact Hle | exact Hc2].
    + split; intro H; [exact Hp2 | exfalso; exact (paths_exclusive _ H Hp2)].
  - rewrite !(query_matcher_raised _ _ _ _ _ _ _ Hbest).
    split; intros (r & tr' & Hr & _); discriminate.
Qed.

End Threshold.

(** ** The formatter *)

Lemma filter_nil_existsb {A} (f : A -> bool) (l : list A) :
  filter f l = [] <-> existsb f l = false.
Proof.
  induction l as [| a l IH]; simpl; [tauto |].
  destruct (f a); simpl; [split; discriminate | exact IH].
Qed.

Lemma append_line_displayable (acc : list string) (result : row) :
  append_line acc result
  = if displayable result then (acc ++ [line_of result])%list else acc.
Proof.
  unfold append_line, displayable, line_of.
  destruct result as [| kv result]; [reflexivity |].
  set (vals := dict_values (kv :: result)).
  destruct (filter (fun v => negb (is_None v)) vals) as [| v vs] eqn:Hf.
  - apply filter_nil_existsb in Hf. rewrite Hf. reflexivity.
  - assert (He : existsb (fun v => negb (is_None v)) vals = true).
    { destruct (existsb (fun v => negb (is_None v)) vals) eqn:E; [reflexivity |].
      apply filter_nil_existsb in E. congruence. }
    rewrite He. reflexivity.
Qed.

(** The loop of [_format_results] collects the lines of the displayable rows,
    in order. *)
Lemma formatted_lines_filter (results : list row) (acc : list string) :
  fold_left append_line results acc
  = (acc ++ map line_of (filter displayable results))%list.
Proof.
  revert acc. induction results as [| r results IH]; intro acc; simpl.
  - rewrite app_nil_r. reflexivity.
  - rewrite IH, append_line_displayable.
    destruct (displayable r); simpl; [| reflexivity].
    rewrite <- app_assoc. reflexivity.
Qed.

Lemma format_results_error_free (question : string) (results : list row)
    (description_text : string) :
  results <> [] ->
  existsb (dict_contains "error") results = false ->
  _format_results question results description_text
  = match map line_of (filter displayable (firstn display_limit results)) with
    | [] => "Results found but no displayable data."
    | shown =>
        "Found " ++ PyText.str_of_nat (length results) ++ " result(s):"
          ++ PyText.nl ++ PyText.join PyText.nl shown
    end.
Proof.
  intros Hne Herr. unfold _format_results.
  destruct results as [| first rest]; [congruence |].
  rewrite Herr. cbv zeta. rewrite formatted_lines_filter, app_nil_l.
  destruct (map line_of (filter displayable (firstn display_limit (first :: rest))));
    reflexivity.
Qed.

Lemma string_app_assoc (a b c : string) : (a ++ b) ++ c = a ++ b ++ c.
Proof. induction a as [| ch a IH]; simpl; [reflexivity | rewrite IH; reflexivity]. Qed.

(** The rendering of the one-row result of a failed execution. *)
Lemma repr_rows_error_row (m : string) :
  repr_rows [error_row m] = "[{'error': " ++ PyText.repr_str m ++ "}]".
Proof.
  unfold repr_rows, repr_row, error_row, PyText.join. simpl.
  rewrite string_app_assoc. reflexivity.
Qed.

Lemma execute_cypher_fails {embedding} (self : FastHybridRAG embedding) text tr m evs :
  store_fails self text m evs ->
  execute_cypher self text tr = (Ok [error_row m], (tr ++ evs)%list).
Proof.
  intros [Ha | run msg Ha Hg Hr].
  - rewrite app_nil_r. apply execute_cypher_unavailable. exact Ha.
  - eapply execute_cypher_rejected; eassumption.
Qed.

(** ** Answers and provenance *)

Section Answers.

Variable embedding : Type.
Variable cosine_similarity : embedding -> embedding -> Q.

Implicit Types (self : FastHybridRAG embedding) (question : string).

(** C2, amended: when the store fails on the query (it raises, or there was
    no connection), [query] still returns a response and the query was sent
    at most once (the events of the attempt are none or one); the method stays the one of the chosen path, "template" or
    "llm_fallback", never "error".  The results are the single row holding
    the failure message under the key "error"; on the template path the
    answer is "No results found or error: " followed by the rendering of that
    row, on the fallback path it is "Error executing query: " followed by the
    message. *)
Theorem C2_store_failure_keeps_method_of_path self question threshold tr
    key score tpl :
  find_best_template cosine_similarity self question default_threshold
    = Ok (key, score, tpl) ->
  (forall m evs,
      (float32_of threshold <= score)%Q ->
      store_fails self (cypher tpl) m evs ->
      exists r,
        query cosine_similarity self question threshold tr = (Ok r, (tr ++ evs)%list)
        /\ method_of r = Some (FStr "template")
        /\ dict_get "results" r = Some (FRows [error_row m])
        /\ dict_get "answer" r
           = Some (FStr ("No results found or error: [{'error': "
                           ++ PyText.repr_str m ++ "}]"))
        /\ (evs = [] \/ evs = [EvRun (cypher tpl)]))
  /\ (forall invoke generated m evs,
         (score < float32_of threshold)%Q ->
         llm self = Some invoke ->
         invoke (llm_prompt question) = Ok generated ->
         store_fails self (PyText.strip generated) m evs ->
         exists r,
           query cosine_similarity self question threshold tr
             = (Ok r, (tr ++ EvInvoke (llm_prompt question) :: evs)%list)
           /\ method_of r = Some (FStr "llm_fallback")
           /\ dict_get "results" r = Some (FRows [error_row m])
           /\ dict_get "answer" r = Some (FStr ("Error executing query: " ++ m))
           /\ (evs = [] \/ evs = [EvRun (PyText.strip generated)])).
Proof.
  intros Hbest. split.
  - intros m evs Hle Hfail.
    apply Qle_bool_iff in Hle.
    pose proof (execute_cypher_fails self _ tr _ _ Hfail) as Hexec.
    eexists. split;
      [exact (query_template_branch _ _ _ _ _ _ _ _ _ _ _ Hbest Hle Hexec) |].
    split; [reflexivity |]. split; [reflexivity |].
    change ("No results found or error: [{'error': " ++ PyText.repr_str m ++ "}]")
      with ("No results found or error: "
              ++ ("[{'error': " ++ PyText.repr_str m ++ "}]")).
    rewrite <- repr_rows_error_row. split; [reflexivity |].
    destruct Hfail; [left | right]; reflexivity.
  - intros invoke generated m evs Hlt Hllm Hgen Hfail.
    apply Qle_bool_false in Hlt.
    pose proof (execute_cypher_fails self _
                  (tr ++ [EvInvoke (llm_prompt question)])%list _ _ Hfail) as Hexec.
    rewrite <- app_assoc in Hexec. simpl in Hexec.
    eexists. split;
      [exact (query_generated_branch _ _ _ _ _ _ _ _ _ _ _ _ _
                Hbest Hlt Hllm Hgen Hexec) |].
    split; [reflexivity |]. split; [reflexivity |]. split; [reflexivity |].
    destruct Hfail; [left | right]; reflexivity.
Qed.

(** C3, amended: when the executed query returns no row, the method is the
    one of the chosen path; the answer is "No results found." on the
    fallback path and "No results found or error: []" on the template
    path. *)
Theorem C3_empty_result_answer_by_path self question threshold tr key score tpl :
  find_best_template cosine_similarity self question default_threshold
    = Ok (key, score, tpl) ->
  (forall tr',
      (float32_of threshold <= score)%Q ->
      execute_cypher self (cypher tpl) tr = (Ok [], tr') ->
      exists r,
        query cosine_similarity self question threshold tr = (Ok r, tr')
        /\ method_of r = Some (FStr "template")
        /\ dict_get "results" r = Some (FRows [])
        /\ dict_get "answer" r = Some (FStr "No results found or error: []"))
  /\ (forall invoke generated tr',
         (score < float32_of threshold)%Q ->
         llm self = Some invoke ->
         invoke (llm_prompt question) = Ok generated ->
         execute_cypher self (PyText.strip generated)
                        (tr ++ [EvInvoke (llm_prompt question)])%list = (Ok [], tr') ->
         exists r,
           query cosine_similarity self question threshold tr = (Ok r, tr')
           /\ method_of r = Some (FStr "llm_fallback")
           /\ dict_get "results" r = Some (FRows [])
           /\ dict_get "answer" r = Some (FStr "No results found.")).
Proof.
  intros Hbest. split.
  - intros tr' Hle Hexec. apply Qle_bool_iff in Hle.
    eexists. split;
      [exact (query_template_branch _ _ _ _ _ _ _ _ _ _ _ Hbest Hle Hexec) |].
    repeat split.
  - intros invoke generated tr' Hlt Hllm Hgen Hexec. apply Qle_bool_false in Hlt.
    eexists. split;
      [exact (query_generated_branch _ _ _ _ _ _ _ _ _ _ _ _ _
                Hbest Hlt Hllm Hgen Hexec) |].
    repeat split.
Qed.

(** C4, amended: the method of every response [query] returns is one of
    "template", "llm_fallback", "no_match" and "error"; when the generator
    produced a query for a question below the threshold, that query is the
    one executed and the method is "llm_fallback". *)
Theorem C4_methods_of_responses self question threshold tr r tr' :
  query cosine_similarity self question threshold tr = (Ok r, tr') ->
  (method_of r = Some (FStr "template")
   \/ method_of r = Some (FStr "llm_fallback")
   \/ method_of r = Some (FStr "no_match")
   \/ method_of r = Some (FStr "error"))
  /\ (forall key score tpl invoke generated,
         find_best_template cosine_similarity self question default_threshold
           = Ok (key, score, tpl) ->
         (score < float32_of threshold)%Q ->
         llm self = Some invoke ->
         invoke (llm_prompt question) = Ok generated ->
         method_of r = Some (FStr "llm_fallback")
         /\ dict_get "cypher" r = Some (FStr (PyText.strip generated))
         /\ exists rows tr0,
              execute_cypher self (PyText.strip generated)
                (tr ++ [EvInvoke (llm_prompt question)])%list = (Ok rows, tr0)
              /\ dict_get "results" r = Some (FRows rows)).
Proof.
  intros Hrun. split.
  - destruct (find_best_template cosine_similarity self question default_threshold)
      as [[[key score] tpl] | msg] eqn:Hbest.
    + destruct (query_decides embedding cosine_similarity self question threshold tr
                  key score tpl Hbest) as [[_ Hp] | [_ Hp]];
        destruct Hp as (r0 & tr0 & Hr0 & Hm); rewrite Hrun in Hr0;
        injection Hr0 as <- <-.
      * left. exact Hm.
      * destruct Hm as [Hm | [Hm | Hm]]; auto.
    + rewrite (query_matcher_raised _ _ _ _ _ _ _ Hbest) in Hrun. discriminate.
  - intros key score tpl invoke generated Hbest Hlt Hllm Hgen.
    apply Qle_bool_false in Hlt.
    destruct (execute_cypher_returns embedding self (PyText.strip generated)
                (tr ++ [EvInvoke (llm_prompt question)])%list)
      as (rows & evs & Hexec & _).
    rewrite (query_generated_branch _ _ _ _ _ _ _ _ _ _ _ _ _
               Hbest Hlt Hllm Hgen Hexec) in Hrun.
    injection Hrun as <- <-.
    split; [reflexivity |]. split; [reflexivity |].
    exists rows, (tr ++ [EvInvoke (llm_prompt question)] ++ evs)%list.
    split; [rewrite app_assoc; exact Hexec | reflexivity].
Qed.

(** C5, amended: when the generator raises on the fallback path, [query]
    returns a response (no exception leaves it) whose method is "error";
    the response has the entries question, method, error and answer only, so
    it has no results entry, and nothing was sent to the store. *)
Theorem C5_generator_failure_is_isolated self question threshold tr key score tpl
    invoke msg :
  find_best_template cosine_similarity self question default_threshold
    = Ok (key, score, tpl) ->
  (score < float32_of threshold)%Q ->
  llm self = Some invoke ->
  invoke (llm_prompt question) = Raised msg ->
  exists r,
    query cosine_similarity self question threshold tr
      = (Ok r, (tr ++ [EvInvoke (llm_prompt question)])%list)
    /\ method_of r = Some (FStr "error")
    /\ dict_keys r = ["question"; "method"; "error"; "answer"]
    /\ dict_get "results" r = None
    /\ dict_get "error" r = Some (FStr ("LLM fallback failed: " ++ msg))
    /\ dict_get "answer" r = Some (FStr "Sorry, I couldn't process your question.").
Proof.
  intros Hbest Hlt Hllm Hgen. apply Qle_bool_false in Hlt.
  eexists. split;
    [exact (query_generator_raised _ _ _ _ _ _ _ _ _ _ _ Hbest Hlt Hllm Hgen) |].
  repeat split.
Qed.

(** C8, amended: for rows that are not empty and have no "error" column, the
    formatter looks at the first 10 rows only and shows one line for each of
    them that has a value other than None, the values other than None joined
    by " | "; when there is such a line the answer is "Found N result(s):"
    with N the total number of rows, followed by the lines, and otherwise it
    is "Results found but no displayable data.".  On both paths the response
    carries every row, and its answer is the formatted text. *)
Theorem C8_display_is_capped_results_are_not self question threshold tr
    key score tpl rows :
  rows <> [] ->
  existsb (dict_contains "error") rows = false ->
  find_best_template cosine_similarity self question default_threshold
    = Ok (key, score, tpl) ->
  (forall q d,
      _format_results q rows d
      = match map line_of (filter displayable (firstn 10 rows)) with
        | [] => "Results found but no displayable data."
        | shown =>
            "Found " ++ PyText.str_of_nat (length rows) ++ " result(s):"
              ++ PyText.nl ++ PyText.join PyText.nl shown
        end)
  /\ (forall tr',
         (float32_of threshold <= score)%Q ->
         execute_cypher self (cypher tpl) tr = (Ok rows, tr') ->
         exists r,
           query cosine_similarity self question threshold tr = (Ok r, tr')
           /\ dict_get "results" r = Some (FRows rows)
           /\ dict_get "answer" r
              = Some (FStr (_format_results question rows (description tpl))))
  /\ (forall invoke generated tr',
         (score < float32_of threshold)%Q ->
         llm self = Some invoke ->
         invoke (llm_prompt question) = Ok generated ->
         execute_cypher self (PyText.strip generated)
                        (tr ++ [EvInvoke (llm_prompt question)])%list = (Ok rows, tr') ->
         exists r,
           query cosine_similarity self question threshold tr = (Ok r, tr')
           /\ dict_get "results" r = Some (FRows rows)
           /\ dict_get "answer" r
              = Some (FStr (_format_results question rows "LLM generated query"))).
Proof.
  intros Hne Herr Hbest. split; [| split].
  - intros q d. apply format_results_error_free; assumption.
  - intros tr' Hle Hexec. apply Qle_bool_iff in Hle.
    eexists. split;
      [exact (query_template_branch _ _ _ _ _ _ _ _ _ _ _ Hbest Hle Hexec) |].
    split; [reflexivity |].
    destruct rows as [| first rest]; [congruence |].
    unfold dict_get; simpl String.eqb; cbv iota. rewrite Herr. reflexivity.
  - intros invoke generated tr' Hlt Hllm Hgen Hexec. apply Qle_bool_false in Hlt.
    eexists. split;
      [exact (query_generated_branch _ _ _ _ _ _ _ _ _ _ _ _ _
                Hbest Hlt Hllm Hgen Hexec) |].
    repeat split.
Qed.

(** C9: when the store answers with rows of which one has a column named
    "error", the template path answers "No results found or error: "
    followed by the rendering of the rows (the method stays "template" and
    the rows are kept in the response), and the formatter returns
    "Error executing query: " followed by the "error" value of the first row
    ("Unknown error" when the first row has no such column) instead of the
    lines of the rows. *)
Theorem C9_error_column_counts_as_failure self question threshold tr
    key score tpl run rows :
  find_best_template cosine_similarity self question default_threshold
    = Ok (key, score, tpl) ->
  (float32_of threshold <= score)%Q ->
  neo4j_available self = true ->
  graph self = Some run ->
  run (cypher tpl) = Ok rows ->
  existsb (dict_contains "error") rows = true ->
  (exists r,
      query cosine_similarity self question threshold tr
        = (Ok r, (tr ++ [EvRun (cypher tpl)])%list)
      /\ method_of r = Some (FStr "template")
      /\ dict_get "results" r = Some (FRows rows)
      /\ dict_get "answer" r
         = Some (FStr ("No results found or error: " ++ repr_rows rows)))
  /\ (forall q d,
         exists first rest,
           rows = first :: rest
           /\ _format_results q rows d
              = "Error executing query: "
                  ++ py_str (match dict_get "error" first with
                             | Some v => v
                             | None => VStr "Unknown error"
                             end)).
Proof.
  intros Hbest Hle Ha Hg Hr Herr. apply Qle_bool_iff in Hle.
  pose proof (execute_cypher_rows embedding self _ tr _ _ Ha Hg Hr) as Hexec.
  split.
  - eexists. split;
      [exact (query_template_branch _ _ _ _ _ _ _ _ _ _ _ Hbest Hle Hexec) |].
    split; [reflexivity |]. split; [reflexivity |].
    unfold dict_get; simpl String.eqb; cbv iota. rewrite Herr.
    destruct rows; reflexivity.
  - intros q d. destruct rows as [| first rest]; [discriminate |].
    exists first, rest. split; [reflexivity |].
    unfold _format_results. rewrite Herr. reflexivity.
Qed.

End Answers.

(** ** Runs of the model *)

Example strip_example :
  PyText.strip (" MATCH (n) RETURN n " ++ PyText.nl) = "MATCH (n) RETURN n".
Proof. reflexivity. Qed.

Example repr_str_example :
  PyText.repr_str "it's" = String PyText.dquote ("it's" ++ String PyText.dquote "")
  /\ PyText.repr_str ("a" ++ PyText.nl) = "'a\n'".
Proof. split; reflexivity. Qed.

Example format_3f_example :
  PyText.format_3f (1 # 16) = "0.062" /\ PyText.format_3f (-1 # 3) = "-0.333"
  /\ PyText.format_3f (7 # 8) = "0.875" /\ PyText.format_3f 1 = "1.000".
Proof. repeat split; reflexivity. Qed.

Example float32_of_examples :
  float32_of (7 # 10) = 11744051 # 16777216
  /\ float32_of (1 # 10) = 13421773 # 134217728
  /\ float32_of (-1 # 3) = -11184811 # 33554432
  /\ (float32_of (1 # 2) == 1 # 2)%Q
  /\ (float32_of (16777217 # 1) == 16777216 # 1)%Q
  /\ (float32_of (16777219 # 1) == 16777220 # 1)%Q.
Proof. repeat split; reflexivity. Qed.

Example argmax_first_of_ties : argmax [1 # 2; 9 # 10; 3 # 10; 9 # 10] = Ok 1%nat.
Proof. reflexivity. Qed.

Example tie_goes_to_first_inserted :
  find_best_template toy_similarity rag_alone "what are the" default_threshold
  = Ok ("what are the goals", 1,
        mkTemplate "MATCH (g:Goal) RETURN g.id, g.name, g.description ORDER BY g.name LIMIT 10"
                   "Get project goals").
Proof. reflexivity. Qed.

Example format_two_names :
  _format_results unknown_question two_names "LLM generated query"
  = "Found 2 result(s):" ++ PyText.nl ++ "Ann | 41" ++ PyText.nl ++ "Bob".
Proof. reflexivity. Qed.

Example no_generator_no_match :
  exists r,
    query toy_similarity rag_alone unknown_question default_threshold [] = (Ok r, [])
    /\ method_of r = Some (FStr "no_match")
    /\ dict_get "template_used" r = Some (FStr "list all stakeholders")
    /\ dict_get "results" r = None.
Proof. eexists. repeat split. Qed.

(** ** Instances of the theorems *)

Lemma C1_witness :
  well_formed rag_store_two_names
  /\ query_default toy_similarity rag_store_two_names stakeholders_question []
     = query toy_similarity rag_store_two_names stakeholders_question (1 # 2) []
  /\ (float32_of (1 # 2) == 1 # 2)%Q
  /\ exists key score tpl r tr',
       find_best_template toy_similarity rag_store_two_names stakeholders_question
         default_threshold = Ok (key, score, tpl)
       /\ query toy_similarity rag_store_two_names stakeholders_question (1 # 2) []
          = (Ok r, tr')
       /\ (method_of r = Some (FStr "template") <-> (float32_of (1 # 2) <= score)%Q)
       /\ ((float32_of (1 # 2) <= score)%Q ->
           exists rows,
             execute_cypher rag_store_two_names (cypher tpl) [] = (Ok rows, tr')
             /\ dict_get "cypher" r = Some (FStr (cypher tpl))
             /\ dict_get "results" r = Some (FRows rows))
       /\ ((score < float32_of (1 # 2))%Q ->
           takes_fallback_path (Ok r, tr')
           /\ exists evs,
                tr' = ([] ++ evs)%list
                /\ forall text, In (EvRun text) evs ->
                     exists invoke generated,
                       llm rag_store_two_names = Some invoke
                       /\ invoke (llm_prompt stakeholders_question) = Ok generated
                       /\ text = PyText.strip generated)
       /\ ((float32_of score == score)%Q -> (1 # 2 <= score)%Q ->
           method_of r = Some (FStr "template")).
Proof.
  split.
  - apply constructed_well_formed.
  - apply (C1_template_path_iff_score_reaches_threshold string toy_similarity
             rag_store_two_names stakeholders_question (1 # 2) []).
    apply constructed_well_formed.
Defined.

(** C1 as stated fails: the best score is 0.7 in single precision, which is
    below the threshold 0.7, and the question is answered on the template
    path, because the threshold is rounded to that same number before the
    comparison. *)
Lemma C1_counterexample :
  (float32_of (7 # 10) == 11744051 # 16777216)%Q
  /\ exists key tpl r tr',
       find_best_template toy_similarity_07 rag_store_two_names stakeholders_question
         default_threshold = Ok (key, 11744051 # 16777216, tpl)
       /\ query toy_similarity_07 rag_store_two_names stakeholders_question (7 # 10) []
          = (Ok r, tr')
       /\ method_of r = Some (FStr "template")
       /\ (11744051 # 16777216 < 7 # 10)%Q
       /\ ~ (7 # 10 <= 11744051 # 16777216)%Q.
Proof.
  split; [reflexivity |].
  eexists _, _, _, _. split; [reflexivity |].
  split; [lazy; reflexivity |]. split; [reflexivity |].
  split; [reflexivity |]. intro H. apply H. reflexivity.
Qed.

Lemma C6_witness :
  well_formed rag_alone
  /\ exists i key score tpl,
       find_best_template toy_similarity rag_alone "what are the" default_threshold
         = Ok (key, score, tpl)
       /\ nth_error (template_keys rag_alone) i = Some key
       /\ nth_error (query_templates rag_alone) i = Some (key, tpl)
       /\ similarity_at toy_similarity rag_alone "what are the" i = Some score
       /\ (forall j s, similarity_at toy_similarity rag_alone "what are the" j = Some s ->
                       (s <= score)%Q)
       /\ (forall j s, (j < i)%nat ->
                       similarity_at toy_similarity rag_alone "what are the" j = Some s ->
                       (s < score)%Q).
Proof.
  split.
  - apply constructed_well_formed.
  - apply (C6_best_template_is_first_maximum string toy_similarity rag_alone
             "what are the" default_threshold).
    apply constructed_well_formed.
Defined.

Lemma C7_witness :
  (3 # 10 <= 7 # 10)%Q
  /\ (takes_fallback_path
        (query toy_similarity rag_store_two_names unknown_question (3 # 10) []) ->
      takes_fallback_path
        (query toy_similarity rag_store_two_names unknown_question (7 # 10) []))
  /\ (takes_template_path
        (query toy_similarity rag_store_two_names unknown_question (7 # 10) []) ->
      takes_template_path
        (query toy_similarity rag_store_two_names unknown_question (3 # 10) [])).
Proof.
  assert (H : (3 # 10 <= 7 # 10)%Q) by (unfold Qle; simpl; lia).
  split.
  - exact H.
  - apply (C7_path_monotone_in_threshold string toy_similarity rag_store_two_names
             unknown_question (3 # 10) (7 # 10) [] H).
Defined.

Lemma C2_witness :
  (find_best_template toy_similarity rag_store_raises stakeholders_question
     default_threshold = Ok (stakeholders_question, 1, stakeholders_template)
   /\ (float32_of (1 # 2) <= 1)%Q
   /\ store_fails rag_store_raises (cypher stakeholders_template)
        ("Query execution failed: " ++ "Invalid input 'RETURNS'")
        [EvRun (cypher stakeholders_template)]
   /\ exists r,
        query toy_similarity rag_store_raises stakeholders_question (1 # 2) []
          = (Ok r, ([] ++ [EvRun (cypher stakeholders_template)])%list)
        /\ method_of r = Some (FStr "template")
        /\ dict_get "results" r
           = Some (FRows [error_row "Query execution failed: Invalid input 'RETURNS'"])
        /\ dict_get "answer" r
           = Some (FStr ("No results found or error: [{'error': "
                           ++ PyText.repr_str "Query execution failed: Invalid input 'RETURNS'"
                           ++ "}]"))
        /\ ([EvRun (cypher stakeholders_template)] = []
            \/ [EvRun (cypher stakeholders_template)]
               = [EvRun (cypher stakeholders_template)]))
  /\ (find_best_template toy_similarity rag_store_raises unknown_question
        default_threshold = Ok ("list all stakeholders", 0, first_template)
      /\ (0 < float32_of (1 # 2))%Q
      /\ llm rag_store_raises = Some (llm_answering (Ok "MATCH (n) RETURNS n"))
      /\ store_fails rag_store_raises (PyText.strip "MATCH (n) RETURNS n")
           ("Query execution failed: " ++ "Invalid input 'RETURNS'")
           [EvRun (PyText.strip "MATCH (n) RETURNS n")]
      /\ exists r,
           query toy_similarity rag_store_raises unknown_question (1 # 2) []
             = (Ok r, ([] ++ EvInvoke (llm_prompt unknown_question)
                           :: [EvRun (PyText.strip "MATCH (n) RETURNS n")])%list)
           /\ method_of r = Some (FStr "llm_fallback")
           /\ dict_get "results" r
              = Some (FRows [error_row "Query execution failed: Invalid input 'RETURNS'"])
           /\ dict_get "answer" r
              = Some (FStr ("Error executing query: "
                              ++ "Query execution failed: Invalid input 'RETURNS'"))
           /\ ([EvRun (PyText.strip "MATCH (n) RETURNS n")] = []
               \/ [EvRun (PyText.strip "MATCH (n) RETURNS n")]
                  = [EvRun (PyText.strip "MATCH (n) RETURNS n")])).
Proof.
  assert (Hbest1 : find_best_template toy_similarity rag_store_raises
                     stakeholders_question default_threshold
                   = Ok (stakeholders_question, 1, stakeholders_template))
    by reflexivity.
  assert (Hbest2 : find_best_template toy_similarity rag_store_raises
                     unknown_question default_threshold
                   = Ok ("list all stakeholders", 0, first_template))
    by reflexivity.
  assert (Hle : (float32_of (1 # 2) <= 1)%Q) by (apply Qle_bool_iff; reflexivity).
  assert (Hlt : (0 < float32_of (1 # 2))%Q) by (apply Qle_bool_false; reflexivity).
  assert (Hfail : forall text,
             store_fails rag_store_raises text
               ("Query execution failed: " ++ "Invalid input 'RETURNS'")
               [EvRun text]).
  { intro text.
    apply (fails_raised rag_store_raises text
             (store_answering (Raised "Invalid input 'RETURNS'"))
             "Invalid input 'RETURNS'"); reflexivity. }
  split.
  - split; [exact Hbest1 |]. split; [exact Hle |]. split; [apply Hfail |].
    exact (proj1 (C2_store_failure_keeps_method_of_path string toy_similarity
                    rag_store_raises stakeholders_question (1 # 2) []
                    stakeholders_question 1 stakeholders_template Hbest1)
             _ _ Hle (Hfail _)).
  - split; [exact Hbest2 |]. split; [exact Hlt |]. split; [reflexivity |].
    split; [apply Hfail |].
    exact (proj2 (C2_store_failure_keeps_method_of_path string toy_similarity
                    rag_store_raises unknown_question (1 # 2) []
                    "list all stakeholders" 0 first_template Hbest2)
             _ "MATCH (n) RETURNS n" _ _ Hlt eq_refl eq_refl (Hfail _)).
Defined.

(** C2 as stated fails: the store rejects the query of the matched template
    and the response reports the method "template", not "error". *)
Lemma C2_counterexample :
  store_answering (Raised "Invalid input 'RETURNS'") (cypher stakeholders_template)
    = Raised "Invalid input 'RETURNS'"
  /\ exists r tr',
       query toy_similarity rag_store_raises stakeholders_question default_threshold []
         = (Ok r, tr')
       /\ method_of r = Some (FStr "template")
       /\ method_of r <> Some (FStr "error").
Proof.
  split; [reflexivity |].
  eexists _, _. split; [lazy; reflexivity |]. split; [reflexivity | discriminate].
Qed.

Lemma C3_witness :
  (find_best_template toy_similarity rag_store_empty stakeholders_question
     default_threshold = Ok (stakeholders_question, 1, stakeholders_template)
   /\ (float32_of (1 # 2) <= 1)%Q
   /\ execute_cypher rag_store_empty (cypher stakeholders_template) []
      = (Ok [], [EvRun (cypher stakeholders_template)])
   /\ exists r,
        query toy_similarity rag_store_empty stakeholders_question (1 # 2) []
          = (Ok r, [EvRun (cypher stakeholders_template)])
        /\ method_of r = Some (FStr "template")
        /\ dict_get "results" r = Some (FRows [])
        /\ dict_get "answer" r = Some (FStr "No results found or error: []"))
  /\ (find_best_template toy_similarity rag_store_empty unknown_question
        default_threshold = Ok ("list all stakeholders", 0, first_template)
      /\ (0 < float32_of (1 # 2))%Q
      /\ llm rag_store_empty = Some (llm_answering (Ok "MATCH (n:Nothing) RETURN n"))
      /\ execute_cypher rag_store_empty (PyText.strip "MATCH (n:Nothing) RETURN n")
           ([] ++ [EvInvoke (llm_prompt unknown_question)])%list
         = (Ok [], [EvInvoke (llm_prompt unknown_question);
                    EvRun "MATCH (n:Nothing) RETURN n"])
      /\ exists r,
           query toy_similarity rag_store_empty unknown_question (1 # 2) []
             = (Ok r, [EvInvoke (llm_prompt unknown_question);
                       EvRun "MATCH (n:Nothing) RETURN n"])
           /\ method_of r = Some (FStr "llm_fallback")
           /\ dict_get "results" r = Some (FRows [])
           /\ dict_get "answer" r = Some (FStr "No results found.")).
Proof.
  assert (Hbest1 : find_best_template toy_similarity rag_store_empty
                     stakeholders_question default_threshold
                   = Ok (stakeholders_question, 1, stakeholders_template))
    by reflexivity.
  assert (Hbest2 : find_best_template toy_similarity rag_store_empty
                     unknown_question default_threshold
                   = Ok ("list all stakeholders", 0, first_template))
    by reflexivity.
  assert (Hle : (float32_of (1 # 2) <= 1)%Q) by (apply Qle_bool_iff; reflexivity).
  assert (Hlt : (0 < float32_of (1 # 2))%Q) by (apply Qle_bool_false; reflexivity).
  split.
  - split; [exact Hbest1 |]. split; [exact Hle |]. split; [reflexivity |].
    exact (proj1 (C3_empty_result_answer_by_path string toy_similarity
                    rag_store_empty stakeholders_question (1 # 2) []
                    stakeholders_question 1 stakeholders_template Hbest1)
             _ Hle eq_refl).
  - split; [exact Hbest2 |]. split; [exact Hlt |]. split; [reflexivity |].
    split; [reflexivity |].
    exact (proj2 (C3_empty_result_answer_by_path string toy_similarity
                    rag_store_empty unknown_question (1 # 2) []
                    "list all stakeholders" 0 first_template Hbest2)
             _ "MATCH (n:Nothing) RETURN n" _ Hlt eq_refl eq_refl eq_refl).
Defined.

(** C3 as stated fails: on the template path an empty result is answered
    with "No results found or error: []". *)
Lemma C3_counterexample :
  execute_cypher rag_store_empty (cypher stakeholders_template) []
    = (Ok [], [EvRun (cypher stakeholders_template)])
  /\ exists r tr',
       query toy_similarity rag_store_empty stakeholders_question default_threshold []
         = (Ok r, tr')
       /\ dict_get "results" r = Some (FRows [])
       /\ dict_get "answer" r = Some (FStr "No results found or error: []")
       /\ dict_get "answer" r <> Some (FStr "No results found.").
Proof.
  split; [reflexivity |].
  eexists _, _. split; [lazy; reflexivity |]. split; [reflexivity |].
  split; [reflexivity | discriminate].
Qed.

Lemma C4_witness :
  exists r tr',
    query toy_similarity rag_store_two_names unknown_question (1 # 2) [] = (Ok r, tr')
    /\ (method_of r = Some (FStr "template")
        \/ method_of r = Some (FStr "llm_fallback")
        \/ method_of r = Some (FStr "no_match")
        \/ method_of r = Some (FStr "error"))
    /\ find_best_template toy_similarity rag_store_two_names unknown_question
         default_threshold = Ok ("list all stakeholders", 0, first_template)
    /\ (0 < float32_of (1 # 2))%Q
    /\ method_of r = Some (FStr "llm_fallback")
    /\ dict_get "cypher" r = Some (FStr "MATCH (s:Stakeholder) RETURN s.name, s.age")
    /\ dict_get "results" r = Some (FRows two_names).
Proof.
  eexists _, _.
  eassert (Hrun : query toy_similarity rag_store_two_names unknown_question (1 # 2) []
                  = (Ok _, _)) by (lazy; reflexivity).
  assert (Hbest : find_best_template toy_similarity rag_store_two_names
                    unknown_question default_threshold
                  = Ok ("list all stakeholders", 0, first_template))
    by reflexivity.
  assert (Hlt : (0 < float32_of (1 # 2))%Q) by (apply Qle_bool_false; reflexivity).
  destruct (C4_methods_of_responses string toy_similarity rag_store_two_names
              unknown_question (1 # 2) [] _ _ Hrun) as [Hset Hgen].
  destruct (Hgen _ _ _ _ _ Hbest Hlt eq_refl eq_refl) as (Hm & Hc & _).
  split; [exact Hrun |]. split; [exact Hset |]. split; [exact Hbest |].
  split; [exact Hlt |]. split; [exact Hm |]. split; [exact Hc | reflexivity].
Defined.

(** C4 as stated fails: a generated and executed query is reported with the
    method "llm_fallback", which is none of the four listed names. *)
Lemma C4_counterexample :
  exists r tr',
    query toy_similarity rag_store_two_names unknown_question default_threshold []
      = (Ok r, tr')
    /\ dict_get "cypher" r = Some (FStr "MATCH (s:Stakeholder) RETURN s.name, s.age")
    /\ dict_get "results" r = Some (FRows two_names)
    /\ method_of r = Some (FStr "llm_fallback")
    /\ ~ (method_of r = Some (FStr "template")
          \/ method_of r = Some (FStr "fallback_generated")
          \/ method_of r = Some (FStr "no_match")
          \/ method_of r = Some (FStr "error")).
Proof.
  eexists _, _. split; [lazy; reflexivity |].
  split; [reflexivity |]. split; [reflexivity |]. split; [reflexivity |].
  intros [H | [H | [H | H]]]; discriminate.
Qed.

Lemma C5_witness :
  find_best_template toy_similarity rag_generator_raises unknown_question
    default_threshold = Ok ("list all stakeholders", 0, first_template)
  /\ (0 < float32_of (1 # 2))%Q
  /\ llm rag_generator_raises = Some (llm_answering (Raised "connection refused"))
  /\ llm_answering (Raised "connection refused") (llm_prompt unknown_question)
     = Raised "connection refused"
  /\ exists r,
       query toy_similarity rag_generator_raises unknown_question (1 # 2) []
         = (Ok r, ([] ++ [EvInvoke (llm_prompt unknown_question)])%list)
       /\ method_of r = Some (FStr "error")
       /\ dict_keys r = ["question"; "method"; "error"; "answer"]
       /\ dict_get "results" r = None
       /\ dict_get "error" r
          = Some (FStr ("LLM fallback failed: " ++ "connection refused"))
       /\ dict_get "answer" r = Some (FStr "Sorry, I couldn't process your question.").
Proof.
  assert (Hbest : find_best_template toy_similarity rag_generator_raises
                    unknown_question default_threshold
                  = Ok ("list all stakeholders", 0, first_template))
    by reflexivity.
  assert (Hlt : (0 < float32_of (1 # 2))%Q) by (apply Qle_bool_false; reflexivity).
  split; [exact Hbest |]. split; [exact Hlt |].
  split; [reflexivity |]. split; [reflexivity |].
  exact (C5_generator_failure_is_isolated string toy_similarity rag_generator_raises
           unknown_question (1 # 2) [] "list all stakeholders" 0 first_template
           (llm_answering (Raised "connection refused")) "connection refused"
           Hbest Hlt eq_refl eq_refl).
Defined.

(** C5 as stated fails in its last part: when the generator raises, the
    response has no results entry, so its results are not an empty
    sequence. *)
Lemma C5_counterexample :
  llm_answering (Raised "connection refused") (llm_prompt unknown_question)
    = Raised "connection refused"
  /\ exists r tr',
       query toy_similarity rag_generator_raises unknown_question default_threshold []
         = (Ok r, tr')
       /\ method_of r = Some (FStr "error")
       /\ dict_contains "results" r = false
       /\ dict_get "results" r <> Some (FRows []).
Proof.
  split; [reflexivity |].
  eexists _, _. split; [lazy; reflexivity |].
  split; [reflexivity |]. split; [reflexivity | discriminate].
Qed.

Lemma C8_witness :
  two_names <> []
  /\ existsb (dict_contains "error") two_names = false
  /\ (find_best_template toy_similarity rag_store_two_names stakeholders_question
        default_threshold = Ok (stakeholders_question, 1, stakeholders_template)
      /\ (float32_of (1 # 2) <= 1)%Q
      /\ execute_cypher rag_store_two_names (cypher stakeholders_template) []
         = (Ok two_names, [EvRun (cypher stakeholders_template)])
      /\ (forall q d,
             _format_results q two_names d
             = "Found 2 result(s):" ++ PyText.nl ++ "Ann | 41" ++ PyText.nl ++ "Bob")
      /\ exists r,
           query toy_similarity rag_store_two_names stakeholders_question (1 # 2) []
             = (Ok r, [EvRun (cypher stakeholders_template)])
           /\ dict_get "results" r = Some (FRows two_names)
           /\ dict_get "answer" r
              = Some (FStr (_format_results stakeholders_question two_names
                              (description stakeholders_template))))
  /\ (find_best_template toy_similarity rag_store_two_names unknown_question
        default_threshold = Ok ("list all stakeholders", 0, first_template)
      /\ (0 < float32_of (1 # 2))%Q
      /\ exists r,
           query toy_similarity rag_store_two_names unknown_question (1 # 2) []
             = (Ok r, [EvInvoke (llm_prompt unknown_question);
                       EvRun "MATCH (s:Stakeholder) RETURN s.name, s.age"])
           /\ dict_get "results" r = Some (FRows two_names)
           /\ dict_get "answer" r
              = Some (FStr (_format_results unknown_question two_names
                              "LLM generated query"))).
Proof.
  assert (Hne : two_names <> []) by discriminate.
  assert (Herr : existsb (dict_contains "error") two_names = false) by reflexivity.
  assert (Hbest1 : find_best_template toy_similarity rag_store_two_names
                     stakeholders_question default_threshold
                   = Ok (stakeholders_question, 1, stakeholders_template))
    by reflexivity.
  assert (Hbest2 : find_best_template toy_similarity rag_store_two_names
                     unknown_question default_threshold
                   = Ok ("list all stakeholders", 0, first_template))
    by reflexivity.
  assert (Hle : (float32_of (1 # 2) <= 1)%Q) by (apply Qle_bool_iff; reflexivity).
  assert (Hlt : (0 < float32_of (1 # 2))%Q) by (apply Qle_bool_false; reflexivity).
  pose proof (C8_display_is_capped_results_are_not string toy_similarity
                rag_store_two_names stakeholders_question (1 # 2) []
                stakeholders_question 1 stakeholders_template two_names
                Hne Herr Hbest1) as (Hfmt & Htpl & _).
  pose proof (C8_display_is_capped_results_are_not string toy_similarity
                rag_store_two_names unknown_question (1 # 2) []
                "list all stakeholders" 0 first_template two_names
                Hne Herr Hbest2) as (_ & _ & Hgen).
  split; [exact Hne |]. split; [exact Herr |]. split.
  - split; [exact Hbest1 |]. split; [exact Hle |]. split; [reflexivity |].
    split; [exact Hfmt |].
    exact (Htpl _ Hle eq_refl).
  - split; [exact Hbest2 |]. split; [exact Hlt |].
    exact (Hgen (llm_answering (Ok (" MATCH (s:Stakeholder) RETURN s.name, s.age"
                                      ++ PyText.nl)))
                (" MATCH (s:Stakeholder) RETURN s.name, s.age" ++ PyText.nl)
                _ Hlt eq_refl eq_refl eq_refl).
Defined.

(** C8 as stated fails: one row whose only value is None is a result that is
    not empty and has no error, and its answer is not prefixed with the
    number of rows. *)
Lemma C8_counterexample :
  [[("s.email", VNone)]] <> ([] : list row)
  /\ existsb (dict_contains "error") [[("s.email", VNone)]] = false
  /\ exists r tr',
       query toy_similarity rag_store_null_row stakeholders_question default_threshold []
         = (Ok r, tr')
       /\ dict_get "results" r = Some (FRows [[("s.email", VNone)]])
       /\ dict_get "answer" r = Some (FStr "Results found but no displayable data.")
       /\ prefix "Found 1 result(s):" "Results found but no displayable data." = false.
Proof.
  split; [discriminate |]. split; [reflexivity |].
  eexists _, _. split; [lazy; reflexivity |]. repeat split.
Qed.

Lemma C9_witness :
  find_best_template toy_similarity rag_store_error_column stakeholders_question
    default_threshold = Ok (stakeholders_question, 1, stakeholders_template)
  /\ (float32_of (1 # 2) <= 1)%Q
  /\ neo4j_available rag_store_error_column = true
  /\ graph rag_store_error_column = Some (store_answering (Ok error_column_rows))
  /\ store_answering (Ok error_column_rows) (cypher stakeholders_template)
     = Ok error_column_rows
  /\ existsb (dict_contains "error") error_column_rows = true
  /\ (exists r,
         query toy_similarity rag_store_error_column stakeholders_question (1 # 2) []
           = (Ok r, ([] ++ [EvRun (cypher stakeholders_template)])%list)
         /\ method_of r = Some (FStr "template")
         /\ dict_get "results" r = Some (FRows error_column_rows)
         /\ dict_get "answer" r
            = Some (FStr ("No results found or error: " ++ repr_rows error_column_rows)))
  /\ (forall q d,
         exists first rest,
           error_column_rows = first :: rest
           /\ _format_results q error_column_rows d
              = "Error executing query: "
                  ++ py_str (match dict_get "error" first with
                             | Some v => v
                             | None => VStr "Unknown error"
                             end)).
Proof.
  assert (Hbest : find_best_template toy_similarity rag_store_error_column
                    stakeholders_question default_threshold
                  = Ok (stakeholders_question, 1, stakeholders_template))
    by reflexivity.
  assert (Hle : (float32_of (1 # 2) <= 1)%Q) by (apply Qle_bool_iff; reflexivity).
  split; [exact Hbest |]. split; [exact Hle |].
  split; [reflexivity |]. split; [reflexivity |].
  split; [reflexivity |]. split; [reflexivity |].
  exact (C9_error_column_counts_as_failure string toy_similarity
           rag_store_error_column stakeholders_question (1 # 2) []
           stakeholders_question 1 stakeholders_template
           (store_answering (Ok error_column_rows)) error_column_rows
           Hbest Hle eq_refl eq_refl eq_refl eq_refl).
Defined.

Example error_column_answers :
  _format_results stakeholders_question error_column_rows "Get stakeholder names"
    = "Error executing query: none so far"
  /\ repr_rows error_column_rows = "[{'task': 'deploy', 'error': 'none so far'}]".
Proof. split; reflexivity. Qed.

(** * Further properties of the code *)

(** ** The query executor *)

(** X1: [execute_cypher] never raises.  Either nothing is sent and the
    result is one error row, or the text is sent exactly once and the result
    is what the store returned, or the one error row made of the message the
    store raised. *)
Theorem X1_execute_cypher_never_raises {embedding} (self : FastHybridRAG embedding)
    (text : string) (tr : list event) :
  exists rows evs,
    execute_cypher self text tr = (Ok rows, (tr ++ evs)%list)
    /\ ((evs = [] /\ exists m, rows = [error_row m])
        \/ (evs = [EvRun text]
            /\ exists run,
                 neo4j_available self = true
                 /\ graph self = Some run
                 /\ (run text = Ok rows
                     \/ exists msg,
                          run text = Raised msg
                          /\ rows = [error_row ("Query execution failed: " ++ msg)]))).
Proof.
  destruct (neo4j_available self) eqn:Ha.
  - destruct (graph self) as [run |] eqn:Hg.
    + destruct (run text) as [rows | msg] eqn:Hr.
      * exists rows, [EvRun text]. split.
        { eapply execute_cypher_rows; eassumption. }
        right. split; [reflexivity |]. exists run. auto.
      * eexists _, [EvRun text]. split.
        { eapply execute_cypher_rejected; eassumption. }
        right. split; [reflexivity |]. exists run.
        split; [reflexivity |]. split; [reflexivity |]. right. eauto.
    + eexists _, []. split.
      { unfold execute_cypher, try_except, lift, ret. rewrite Ha, Hg. simpl.
        rewrite app_nil_r. reflexivity. }
      left. split; [reflexivity |]. eauto.
  - eexists _, []. split.
    { rewrite app_nil_r. apply execute_cypher_unavailable. exact Ha. }
    left. split; [reflexivity |]. eauto.
Qed.

(** ** The formatter *)

Lemma dict_contains_get_none {V} (key : string) (d : dict V) :
  dict_contains key d = false -> dict_get key d = None.
Proof.
  induction d as [| [k v] d IH]; simpl; [reflexivity |].
  destruct (String.eqb key k); simpl; [discriminate | exact IH].
Qed.

(** X2: the error test of [_format_results] looks at every row, also at rows
    beyond the ten that are displayed, while the message is taken from the
    first row: when a later row has a column named error and the first row
    has none, the answer is "Error executing query: Unknown error". *)
Theorem X2_error_in_later_row_is_unknown_error (question description_text : string)
    (first : row) (rest : list row) :
  dict_contains "error" first = false ->
  existsb (dict_contains "error") rest = true ->
  _format_results question (first :: rest) description_text
  = "Error executing query: Unknown error".
Proof.
  intros Hfirst Hrest. unfold _format_results.
  cbn [existsb]. rewrite Hfirst, Hrest. cbn [orb].
  rewrite (dict_contains_get_none _ _ Hfirst). reflexivity.
Qed.

Lemma X2_witness :
  dict_contains "error" [("n", VInt 1)] = false
  /\ existsb (dict_contains "error") (tl eleven_rows) = true
  /\ existsb (dict_contains "error") (firstn 10 eleven_rows) = false
  /\ _format_results "q" ([("n", VInt 1)] :: tl eleven_rows) "d"
     = "Error executing query: Unknown error".
Proof.
  split; [reflexivity |]. split; [reflexivity |]. split; [reflexivity |].
  apply (X2_error_in_later_row_is_unknown_error "q" "d" [("n", VInt 1)]
           (tl eleven_rows)); reflexivity.
Defined.

(** X3: for results without an error column, the rows after the tenth
    influence the answer through their number only: two results of the same
    length with the same first ten rows get the same answer, whatever the
    question and the description passed along. *)
Theorem X3_rows_after_the_tenth_only_count (q1 q2 d1 d2 : string)
    (rs1 rs2 : list row) :
  rs1 <> [] ->
  existsb (dict_contains "error") rs1 = false ->
  existsb (dict_contains "error") rs2 = false ->
  firstn 10 rs1 = firstn 10 rs2 ->
  length rs1 = length rs2 ->
  _format_results q1 rs1 d1 = _format_results q2 rs2 d2.
Proof.
  intros Hne He1 He2 Hfirst Hlen.
  assert (Hne2 : rs2 <> []).
  { intro H. rewrite H in Hlen. destruct rs1; [congruence | discriminate]. }
  rewrite (format_results_error_free q1 rs1 d1 Hne He1).
  rewrite (format_results_error_free q2 rs2 d2 Hne2 He2).
  unfold display_limit. rewrite Hfirst, Hlen. reflexivity.
Qed.

Lemma X3_witness :
  twelve_rows 8 <> []
  /\ existsb (dict_contains "error") (twelve_rows 8) = false
  /\ existsb (dict_contains "error") (twelve_rows 9) = false
  /\ firstn 10 (twelve_rows 8) = firstn 10 (twelve_rows 9)
  /\ length (twelve_rows 8) = length (twelve_rows 9)
  /\ twelve_rows 8 <> twelve_rows 9
  /\ _format_results "a" (twelve_rows 8) "b" = _format_results "c" (twelve_rows 9) "d".
Proof.
  split; [discriminate |]. split; [reflexivity |]. split; [reflexivity |].
  split; [reflexivity |]. split; [reflexivity |]. split; [discriminate |].
  apply X3_rows_after_the_tenth_only_count;
    [discriminate | reflexivity | reflexivity | reflexivity | reflexivity].
Defined.

(** ** The embedding index *)

Lemma dict_get_In {V} (d : dict V) (k : string) (v : V) :
  NoDup (dict_keys d) -> In (k, v) d -> dict_get k d = Some v.
Proof.
  intros Hnd Hin. apply In_nth_error in Hin as [i Hi].
  eapply dict_get_nth_error; eassumption.
Qed.

Section Index.

Variable embedding : Type.

Lemma template_texts_of_entries (templates sub : dict template) :
  NoDup (dict_keys templates) ->
  (forall kv, In kv sub -> In kv templates) ->
  fold_right
    (fun key acc =>
       obind (dict_getitem templates key) (fun t =>
       obind acc (fun texts => Ok ((key ++ " " ++ description t) :: texts))))
    (Ok []) (dict_keys sub)
  = Ok (template_texts sub).
Proof.
  intros Hnd. induction sub as [| [k t] sub IH]; intros Hsub.
  - reflexivity.
  - change (dict_keys ((k, t) :: sub)) with (k :: dict_keys sub).
    cbn [fold_right map fst snd].
    rewrite IH by (intros kv Hkv; apply Hsub; right; exact Hkv).
    unfold dict_getitem.
    rewrite (dict_get_In templates k t Hnd) by (apply Hsub; left; reflexivity).
    reflexivity.
Qed.

(** What [_setup_embeddings] does, step by step. *)
Lemma setup_embeddings_steps (load : outcome (sentence_transformer embedding))
    (templates : dict template) :
  NoDup (dict_keys templates) ->
  _setup_embeddings load templates
  = match load with
    | Raised _ => SystemExit 1
    | Ok model =>
        match encode_texts model (template_texts templates) with
        | Raised _ => SystemExit 1
        | Ok embeddings => Started (model, dict_keys templates, embeddings)
        end
    end.
Proof.
  intros Hnd. unfold _setup_embeddings.
  destruct load as [model | msg]; [| reflexivity].
  cbn [obind].
  rewrite (template_texts_of_entries templates templates Hnd) by auto.
  cbn [obind].
  destruct (encode_texts model (template_texts templates)); reflexivity.
Qed.

(** X4: [_setup_embeddings] on any catalog (a dict, so without repeated
    keys).  When loading the model raises, or when encoding the texts
    raises, the process exits with status 1; no lookup of a key fails.
    Otherwise the result is the keys in insertion order and what the one call
    of [encode] returned for the texts "key description" of the entries,
    taken in the same order; so when that call returns one embedding per
    text, the embedding at a position belongs to the key at the same
    position. *)
Theorem X4_setup_embeddings_exits_or_couples
    (load : outcome (sentence_transformer embedding)) (templates : dict template) :
  NoDup (dict_keys templates) ->
  (forall msg, load = Raised msg -> _setup_embeddings load templates = SystemExit 1)
  /\ (forall model msg,
         load = Ok model ->
         encode_texts model (template_texts templates) = Raised msg ->
         _setup_embeddings load templates = SystemExit 1)
  /\ (forall model embeddings,
         load = Ok model ->
         encode_texts model (template_texts templates) = Ok embeddings ->
         _setup_embeddings load templates
           = Started (model, dict_keys templates, embeddings)
         /\ length (template_texts templates) = length (dict_keys templates)
         /\ forall i key tpl,
              nth_error templates i = Some (key, tpl) ->
              nth_error (dict_keys templates) i = Some key
              /\ nth_error (template_texts templates) i
                 = Some (key ++ " " ++ description tpl)).
Proof.
  intros Hnd. pose proof (setup_embeddings_steps load templates Hnd) as Hsteps.
  split; [| split].
  - intros msg ->. exact Hsteps.
  - intros model msg -> Henc. rewrite Henc in Hsteps. exact Hsteps.
  - intros model embeddings -> Henc. rewrite Henc in Hsteps.
    split; [exact Hsteps |].
    split; [unfold template_texts, dict_keys; rewrite !length_map; reflexivity |].
    intros i key tpl Hi. unfold template_texts, dict_keys.
    rewrite !nth_error_map, Hi. split; reflexivity.
Qed.

(** The constructor, step by step. *)
Lemma init_steps (name : string) (load : outcome (sentence_transformer embedding))
    neo4j ollama :
  __init__ name load neo4j ollama
  = match load with
    | Raised _ => SystemExit 1
    | Ok model =>
        match encode_texts model (template_texts _setup_query_templates) with
        | Raised _ => SystemExit 1
        | Ok embeddings =>
            Started (mkRAG name (encode_question model) neo4j
                       (match neo4j with Some _ => true | None => false end)
                       ollama _setup_query_templates embeddings
                       (dict_keys _setup_query_templates))
        end
    end.
Proof.
  unfold __init__.
  rewrite setup_embeddings_steps by (apply distinct_NoDup; reflexivity).
  destruct load as [model | msg]; [| reflexivity].
  destruct (encode_texts model (template_texts _setup_query_templates));
    reflexivity.
Qed.

(** With a model that encodes the list text by text, the constructor
    returns the instance [constructed]. *)
Lemma init_returns (name : string) (model : sentence_transformer embedding)
    neo4j ollama :
  encode_texts model (template_texts _setup_query_templates)
    = Ok (map (encode_question model) (template_texts _setup_query_templates)) ->
  __init__ name (Ok model) neo4j ollama
  = Started (constructed name (encode_question model) neo4j ollama).
Proof.
  intros Henc. rewrite init_steps, Henc.
  unfold constructed, template_texts. rewrite map_map. reflexivity.
Qed.

(** An instance the constructor returns with as many embeddings as templates
    has the invariant. *)
Lemma init_well_formed (name : string) (load : outcome (sentence_transformer embedding))
    neo4j ollama (self : FastHybridRAG embedding) :
  __init__ name load neo4j ollama = Started self ->
  length (template_embeddings self) = length _setup_query_templates ->
  well_formed self.
Proof.
  rewrite init_steps. intros Hinit Hlen.
  destruct load as [model | msg]; [| discriminate].
  destruct (encode_texts model (template_texts _setup_query_templates));
    [| discriminate].
  injection Hinit as <-. cbn [template_embeddings] in Hlen.
  unfold well_formed. cbn [template_keys query_templates template_embeddings].
  split; [reflexivity |].
  split; [rewrite Hlen; reflexivity |].
  split; [apply distinct_NoDup; reflexivity | discriminate].
Qed.

End Index.

Lemma X4_witness :
  NoDup (dict_keys small_catalog)
  /\ encode_texts toy_model (template_texts small_catalog)
     = Ok ["list all stakeholders Get all stakeholders";
           "show all features Get features list"]
  /\ _setup_embeddings (Ok toy_model) small_catalog
     = Started (toy_model,
                ["list all stakeholders"; "show all features"],
                ["list all stakeholders Get all stakeholders";
                 "show all features Get features list"])
  /\ encode_texts broken_model (template_texts small_catalog)
     = Raised "CUDA out of memory"
  /\ _setup_embeddings (Ok broken_model) small_catalog = SystemExit 1
  /\ _setup_embeddings (Raised "no such model") small_catalog
     = (SystemExit 1 : startup (sentence_transformer string * list string * list string)).
Proof.
  assert (Hnd : NoDup (dict_keys small_catalog))
    by (apply distinct_NoDup; reflexivity).
  destruct (X4_setup_embeddings_exits_or_couples string (Ok toy_model)
              small_catalog Hnd) as (_ & _ & Hok).
  destruct (X4_setup_embeddings_exits_or_couples string (Ok broken_model)
              small_catalog Hnd) as (_ & Hraise & _).
  destruct (X4_setup_embeddings_exits_or_couples string (Raised "no such model")
              small_catalog Hnd) as (Hload & _ & _).
  split; [exact Hnd |]. split; [reflexivity |].
  split; [exact (proj1 (Hok toy_model _ eq_refl eq_refl)) |].
  split; [reflexivity |].
  split; [exact (Hraise broken_model _ eq_refl eq_refl) |].
  exact (Hload _ eq_refl).
Defined.

(** ** The router, branch by branch *)

(** Case analysis of one run of [query]: the matcher raised, or one of the
    four branches was taken; [Hrun] is rewritten with the result of the
    branch. *)
Ltac query_cases cos self question threshold tr Hrun :=
  let key := fresh "key" in
  let score := fresh "score" in
  let tpl := fresh "tpl" in
  let msg := fresh "msg" in
  let Hbest := fresh "Hbest" in
  let Hcmp := fresh "Hcmp" in
  let rows := fresh "rows" in
  let evs := fresh "evs" in
  let Hexec := fresh "Hexec" in
  let Hevs := fresh "Hevs" in
  let invoke := fresh "invoke" in
  let Hllm := fresh "Hllm" in
  let generated := fresh "generated" in
  let Hgen := fresh "Hgen" in
  destruct (find_best_template cos self question default_threshold)
    as [[[key score] tpl] | msg] eqn:Hbest;
  [ destruct (Qle_bool (float32_of threshold) score) eqn:Hcmp;
    [ destruct (execute_cypher_returns _ self (cypher tpl) tr)
        as (rows & evs & Hexec & Hevs);
      rewrite (query_template_branch _ _ _ _ _ _ _ _ _ _ _ Hbest Hcmp Hexec) in Hrun
    | destruct (llm self) as [invoke |] eqn:Hllm;
      [ destruct (invoke (llm_prompt question)) as [generated | msg] eqn:Hgen;
        [ destruct (execute_cypher_returns _ self (PyText.strip generated)
                      (tr ++ [EvInvoke (llm_prompt question)])%list)
            as (rows & evs & Hexec & Hevs);
          rewrite (query_generated_branch _ _ _ _ _ _ _ _ _ _ _ _ _
                     Hbest Hcmp Hllm Hgen Hexec) in Hrun
        | rewrite (query_generator_raised _ _ _ _ _ _ _ _ _ _ _
                     Hbest Hcmp Hllm Hgen) in Hrun ]
      | rewrite (query_no_generator _ _ _ _ _ _ _ _ _ Hbest Hcmp Hllm) in Hrun ] ]
  | rewrite (query_matcher_raised _ _ _ _ _ _ _ Hbest) in Hrun ].

Section Calls.

Variable embedding : Type.
Variable cosine_similarity : embedding -> embedding -> Q.

Implicit Types (self : FastHybridRAG embedding) (question : string).

(** X5: one call of [query], on any instance, makes at most one call of the
    generator and sends at most one query to the store, the prompt first;
    nothing is ever sent twice. *)
Theorem X5_at_most_one_prompt_and_one_query self question threshold tr :
  exists o evs,
    query cosine_similarity self question threshold tr = (o, (tr ++ evs)%list)
    /\ (evs = []
        \/ (exists text, evs = [EvRun text])
        \/ evs = [EvInvoke (llm_prompt question)]
        \/ exists text, evs = [EvInvoke (llm_prompt question); EvRun text]).
Proof.
  destruct (query cosine_similarity self question threshold tr) as [o tr'] eqn:Hrun.
  exists o.
  query_cases cosine_similarity self question threshold tr Hrun;
    injection Hrun as <- <-.
  - exists evs. split; [reflexivity |].
    destruct Hevs as [-> | ->]; [left | right; left]; eauto.
  - exists (EvInvoke (llm_prompt question) :: evs).
    split; [rewrite <- app_assoc; reflexivity |].
    destruct Hevs as [-> | ->]; [right; right; left | right; right; right]; eauto.
  - exists [EvInvoke (llm_prompt question)]. split; [reflexivity |]. auto.
  - exists []. split; [rewrite app_nil_r; reflexivity |]. auto.
  - exists []. split; [rewrite app_nil_r; reflexivity |]. auto.
Qed.

(** X6: the answer of the template path does not depend on the generator:
    two instances that differ in [llm] (and the model name) only return the
    same response and leave the same trace for a question that one of them
    answers on the template path; the generator is not called. *)
Theorem X6_template_path_ignores_generator self1 self2 question threshold tr :
  embedding_model self1 = embedding_model self2 ->
  graph self1 = graph self2 ->
  neo4j_available self1 = neo4j_available self2 ->
  query_templates self1 = query_templates self2 ->
  template_embeddings self1 = template_embeddings self2 ->
  template_keys self1 = template_keys self2 ->
  takes_template_path (query cosine_similarity self1 question threshold tr) ->
  query cosine_similarity self1 question threshold tr
    = query cosine_similarity self2 question threshold tr
  /\ exists evs,
       snd (query cosine_similarity self1 question threshold tr) = (tr ++ evs)%list
       /\ forall prompt, ~ In (EvInvoke prompt) evs.
Proof.
  intros Hm Hg Ha Hq He Hk Hpath.
  assert (Hsame : find_best_template cosine_similarity self2 question default_threshold
                  = find_best_template cosine_similarity self1 question default_threshold)
    by (unfold find_best_template; rewrite Hm, Hq, He, Hk; reflexivity).
  assert (Hexec_same : forall text,
             execute_cypher self2 text tr = execute_cypher self1 text tr)
    by (intro text; unfold execute_cypher; rewrite Hg, Ha; reflexivity).
  destruct (find_best_template cosine_similarity self1 question default_threshold)
    as [[[key score] tpl] | msg] eqn:Hbest.
  - destruct (query_decides embedding cosine_similarity self1 question threshold tr
                key score tpl Hbest) as [[Hcmp _] | [_ Hfb]];
      [| exfalso; exact (paths_exclusive _ Hpath Hfb)].
    destruct (execute_cypher_returns embedding self1 (cypher tpl) tr)
      as (rows & evs & Hexec & Hevs).
    pose proof Hexec as Hexec2. rewrite <- Hexec_same in Hexec2.
    rewrite (query_template_branch _ _ _ _ _ _ _ _ _ _ _ Hbest Hcmp Hexec).
    rewrite (query_template_branch _ _ _ _ _ _ _ _ _ _ _ Hsame Hcmp Hexec2).
    split; [reflexivity |].
    exists evs. split; [reflexivity |].
    intros prompt Hin.
    destruct Hevs as [-> | ->]; simpl in Hin; [contradiction |].
    destruct Hin as [Hin | []]. discriminate.
  - rewrite (query_matcher_raised _ _ _ _ _ _ _ Hbest) in Hpath.
    destruct Hpath as (r & tr' & Hr & _). discriminate.
Qed.

End Calls.

Lemma X6_witness :
  takes_template_path
    (query toy_similarity rag_store_two_names stakeholders_question (1 # 2) [])
  /\ llm rag_store_two_names <> llm rag_store_only
  /\ query toy_similarity rag_store_two_names stakeholders_question (1 # 2) []
     = query toy_similarity rag_store_only stakeholders_question (1 # 2) []
  /\ exists evs,
       snd (query toy_similarity rag_store_two_names stakeholders_question (1 # 2) [])
         = ([] ++ evs)%list
       /\ forall prompt, ~ In (EvInvoke prompt) evs.
Proof.
  assert (Hpath : takes_template_path
            (query toy_similarity rag_store_two_names stakeholders_question (1 # 2) [])).
  { eexists _, _. split; [lazy; reflexivity | reflexivity]. }
  split; [exact Hpath |]. split; [discriminate |].
  apply (X6_template_path_ignores_generator string toy_similarity
           rag_store_two_names rag_store_only stakeholders_question (1 # 2) []);
    try reflexivity.
  exact Hpath.
Defined.

(** ** White space around a generated query *)

Lemma lstrip_head (s : string) :
  PyText.lstrip s = EmptyString
  \/ exists c rest, PyText.lstrip s = String c rest /\ PyText.isspace c = false.
Proof.
  induction s as [| c s IH]; simpl; [left; reflexivity |].
  destruct (PyText.isspace c) eqn:Hc; [exact IH |].
  right. exists c, s. split; [reflexivity | exact Hc].
Qed.

Lemma rstrip_head (c : ascii) (s : string) :
  PyText.isspace c = false ->
  exists rest, PyText.rstrip (String c s) = String c rest.
Proof.
  intros Hc. simpl. destruct (PyText.rstrip s).
  - rewrite Hc. eauto.
  - eauto.
Qed.

Lemma rstrip_idempotent (s : string) :
  PyText.rstrip (PyText.rstrip s) = PyText.rstrip s.
Proof.
  induction s as [| c s IH]; simpl; [reflexivity |].
  destruct (PyText.rstrip s) as [| d rest] eqn:Hr.
  - destruct (PyText.isspace c) eqn:Hc; simpl; [reflexivity |].
    rewrite Hc. reflexivity.
  - change (PyText.rstrip (String c (String d rest)))
      with (match PyText.rstrip (String d rest) with
            | EmptyString =>
                if PyText.isspace c then EmptyString else String c EmptyString
            | String e rest' => String c (String e rest')
            end).
    rewrite IH. reflexivity.
Qed.

Lemma strip_idempotent (s : string) : PyText.strip (PyText.strip s) = PyText.strip s.
Proof.
  unfold PyText.strip.
  destruct (lstrip_head s) as [-> | (c & rest & -> & Hc)]; [reflexivity |].
  destruct (rstrip_head c rest Hc) as (rest' & Hr). rewrite Hr.
  assert (Hl : PyText.lstrip (String c rest') = String c rest')
    by (simpl; rewrite Hc; reflexivity).
  rewrite Hl, <- Hr. apply rstrip_idempotent.
Qed.

Section Responses.

Variable embedding : Type.
Variable cosine_similarity : embedding -> embedding -> Q.

Implicit Types (self : FastHybridRAG embedding) (question : string).

(** X7: every response of [query] carries the question as asked and an
    answer text.  It has an entry "error" exactly when its method is
    "error" (the test the web handler makes), entries "cypher", "results"
    and "execution_time" exactly when its method is "template" or
    "llm_fallback" (the test the console makes before it prints the
    query), and entries "similarity" and "template_used" exactly when it has
    no entry "error". *)
Theorem X7_entries_of_a_response self question threshold tr r tr' :
  query cosine_similarity self question threshold tr = (Ok r, tr') ->
  dict_get "question" r = Some (FStr question)
  /\ (exists a, dict_get "answer" r = Some (FStr a))
  /\ (dict_contains "error" r = true <-> method_of r = Some (FStr "error"))
  /\ (dict_contains "cypher" r = true
      <-> (method_of r = Some (FStr "template")
           \/ method_of r = Some (FStr "llm_fallback")))
  /\ dict_contains "results" r = dict_contains "cypher" r
  /\ dict_contains "execution_time" r = dict_contains "cypher" r
  /\ dict_contains "similarity" r = negb (dict_contains "error" r)
  /\ dict_contains "template_used" r = negb (dict_contains "error" r).
Proof.
  intros Hrun.
  query_cases cosine_similarity self question threshold tr Hrun;
    try discriminate Hrun; injection Hrun as <- <-;
    (split; [reflexivity |]);
    (split; [eexists; reflexivity |]);
    (split; [split; intro H; (reflexivity || discriminate H) |]);
    (split; [split; intro H;
             [ first [ discriminate H | left; reflexivity | right; reflexivity ]
             | first [ reflexivity | destruct H as [H | H]; discriminate H ] ] |]);
    repeat split.
Qed.

(** X8: on a constructed instance a question takes the template path
    exactly when at least one template of the catalog has a similarity to it
    that is at least the threshold taken to single precision, which is how
    the comparison of [query] is made; a template whose similarity is a
    [float32] and at least the threshold is such a template. *)
Theorem X8_template_path_iff_some_template_reaches self question threshold tr :
  well_formed self ->
  (takes_template_path (query cosine_similarity self question threshold tr)
   <-> exists i s,
         similarity_at cosine_similarity self question i = Some s
         /\ (float32_of threshold <= s)%Q)
  /\ forall i s,
       similarity_at cosine_similarity self question i = Some s ->
       (float32_of s == s)%Q ->
       (threshold <= s)%Q ->
       takes_template_path (query cosine_similarity self question threshold tr).
Proof.
  intros Hwf.
  assert (Hiff :
            takes_template_path (query cosine_similarity self question threshold tr)
            <-> exists i s,
                  similarity_at cosine_similarity self question i = Some s
                  /\ (float32_of threshold <= s)%Q);
    [| split; [exact Hiff |];
       intros i s Hs Hrep Hle; apply Hiff; exists i, s;
       split; [exact Hs | apply rounded_threshold_below; assumption]].
  destruct (find_best_template_returns embedding cosine_similarity self question
              default_threshold Hwf)
    as (i & key & score & tpl & Hbest & _ & Hi & Hle & _).
  destruct (query_decides embedding cosine_similarity self question threshold tr
              key score tpl Hbest) as [[Hcmp Hp] | [Hcmp Hp]].
  - split; [intros _ | intros _; exact Hp].
    exists i, score. split.
    + rewrite <- similarity_at_map. exact Hi.
    + apply Qle_bool_iff. exact Hcmp.
  - split.
    + intro Ht. exfalso. exact (paths_exclusive _ Ht Hp).
    + intros (j & s & Hj & Hs). exfalso.
      apply Qle_bool_false in Hcmp. apply (Qlt_not_le _ _ Hcmp).
      apply Qle_trans with s; [exact Hs |].
      apply (Hle j). rewrite similarity_at_map. exact Hj.
Qed.

(** X9: on the template path of a constructed instance, whatever the
    question, the only text sent to the store is the query of an entry of
    the catalog: the question itself never reaches the store. *)
Theorem X9_template_path_sends_catalog_query self question threshold tr :
  well_formed self ->
  takes_template_path (query cosine_similarity self question threshold tr) ->
  exists evs,
    snd (query cosine_similarity self question threshold tr) = (tr ++ evs)%list
    /\ forall ev, In ev evs ->
         exists key tpl,
           In (key, tpl) (query_templates self) /\ ev = EvRun (cypher tpl).
Proof.
  intros Hwf Hpath.
  destruct (find_best_template_returns embedding cosine_similarity self question
              default_threshold Hwf)
    as (i & key & score & tpl & Hbest & Hentry & _).
  destruct (query_decides embedding cosine_similarity self question threshold tr
              key score tpl Hbest) as [[Hcmp _] | [_ Hfb]];
    [| exfalso; exact (paths_exclusive _ Hpath Hfb)].
  destruct (execute_cypher_returns embedding self (cypher tpl) tr)
    as (rows & evs & Hexec & Hevs).
  rewrite (query_template_branch _ _ _ _ _ _ _ _ _ _ _ Hbest Hcmp Hexec).
  exists evs. split; [reflexivity |].
  intros ev Hin. exists key, tpl. split.
  - eapply nth_error_In. exact Hentry.
  - destruct Hevs as [-> | ->]; simpl in Hin; [contradiction |].
    destruct Hin as [<- | []]. reflexivity.
Qed.

(** X10: the query reported and executed on the generated path is the text
    of the generator without the white space around it: stripping it again
    changes nothing, and it is the only text sent to the store.  The text is
    not checked otherwise: it may be empty. *)
Theorem X10_generated_query_is_stripped self question threshold tr r tr' :
  query cosine_similarity self question threshold tr = (Ok r, tr') ->
  method_of r = Some (FStr "llm_fallback") ->
  exists invoke generated evs,
    llm self = Some invoke
    /\ invoke (llm_prompt question) = Ok generated
    /\ dict_get "cypher" r = Some (FStr (PyText.strip generated))
    /\ PyText.strip (PyText.strip generated) = PyText.strip generated
    /\ tr' = (tr ++ EvInvoke (llm_prompt question) :: evs)%list
    /\ (evs = [] \/ evs = [EvRun (PyText.strip generated)]).
Proof.
  intros Hrun Hm.
  query_cases cosine_similarity self question threshold tr Hrun;
    try discriminate Hrun; injection Hrun as <- <-; try discriminate Hm.
  exists invoke, generated, evs.
  split; [reflexivity |]. split; [exact Hgen |]. split; [reflexivity |].
  split; [apply strip_idempotent |].
  split; [rewrite <- app_assoc; reflexivity | exact Hevs].
Qed.

(** X11: the key returned by the matcher on a constructed instance is one
    of [list_available_queries], which lists the same keys as the help of the
    console; the template returned is the entry of that key. *)
Theorem X11_best_key_is_an_available_query self question threshold :
  well_formed self ->
  list_available_queries self = template_keys self
  /\ exists key score tpl,
       find_best_template cosine_similarity self question threshold
         = Ok (key, score, tpl)
       /\ In key (list_available_queries self)
       /\ dict_get key (query_templates self) = Some tpl.
Proof.
  intros Hwf.
  destruct (find_best_template_returns embedding cosine_similarity self question
              threshold Hwf) as (i & key & score & tpl & Hbest & Hentry & _).
  destruct Hwf as (Hkeys & _ & Hnd & _).
  split; [symmetry; exact Hkeys |].
  exists key, score, tpl. split; [exact Hbest |]. split.
  - unfold list_available_queries, dict_keys.
    change key with (fst (key, tpl)). apply in_map.
    eapply nth_error_In. exact Hentry.
  - apply (dict_get_nth_error _ i); [rewrite <- Hkeys; exact Hnd | exact Hentry].
Qed.

(** X12: what a response says about its provenance.  With [key] and [score]
    the best match: a "template" response names [key] and the query of its
    template; an "llm_fallback" response has None as template_used; a
    "no_match" response names [key] although its template was not used, and
    was produced without any call to the store or the generator; all three
    report [score].  An "error" response reports neither. *)
Theorem X12_provenance_of_a_response self question threshold tr r tr'
    key score tpl :
  query cosine_similarity self question threshold tr = (Ok r, tr') ->
  find_best_template cosine_similarity self question default_threshold
    = Ok (key, score, tpl) ->
  (method_of r = Some (FStr "template") ->
     dict_get "template_used" r = Some (FStr key)
     /\ dict_get "similarity" r = Some (FScore score)
     /\ dict_get "cypher" r = Some (FStr (cypher tpl)))
  /\ (method_of r = Some (FStr "llm_fallback") ->
        dict_get "template_used" r = Some FNone
        /\ dict_get "similarity" r = Some (FScore score))
  /\ (method_of r = Some (FStr "no_match") ->
        dict_get "template_used" r = Some (FStr key)
        /\ dict_get "similarity" r = Some (FScore score)
        /\ dict_get "cypher" r = None
        /\ tr' = tr)
  /\ (method_of r = Some (FStr "error") ->
        dict_get "template_used" r = None
        /\ dict_get "similarity" r = None).
Proof.
  intros Hrun Hbest0.
  query_cases cosine_similarity self question threshold tr Hrun;
    try discriminate Hrun; injection Hrun as <- <-;
    injection Hbest0 as <- <- <-;
    repeat split; try discriminate; reflexivity.
Qed.

End Responses.

Lemma X7_witness :
  exists r tr',
    query toy_similarity rag_generator_raises unknown_question (1 # 2) [] = (Ok r, tr')
    /\ dict_get "question" r = Some (FStr unknown_question)
    /\ (exists a, dict_get "answer" r = Some (FStr a))
    /\ (dict_contains "error" r = true <-> method_of r = Some (FStr "error"))
    /\ (dict_contains "cypher" r = true
        <-> (method_of r = Some (FStr "template")
             \/ method_of r = Some (FStr "llm_fallback")))
    /\ dict_contains "results" r = dict_contains "cypher" r
    /\ dict_contains "execution_time" r = dict_contains "cypher" r
    /\ dict_contains "similarity" r = negb (dict_contains "error" r)
    /\ dict_contains "template_used" r = negb (dict_contains "error" r).
Proof.
  eexists _, _.
  eassert (Hrun : query toy_similarity rag_generator_raises unknown_question (1 # 2) []
                  = (Ok _, _)) by (lazy; reflexivity).
  split; [exact Hrun |].
  exact (X7_entries_of_a_response string toy_similarity rag_generator_raises
           unknown_question (1 # 2) [] _ _ Hrun).
Defined.

Lemma X8_witness :
  well_formed rag_alone
  /\ (takes_template_path (query toy_similarity rag_alone "what are the" (1 # 2) [])
      <-> exists i s,
            similarity_at toy_similarity rag_alone "what are the" i = Some s
            /\ (float32_of (1 # 2) <= s)%Q)
  /\ forall i s,
       similarity_at toy_similarity rag_alone "what are the" i = Some s ->
       (float32_of s == s)%Q ->
       (1 # 2 <= s)%Q ->
       takes_template_path (query toy_similarity rag_alone "what are the" (1 # 2) []).
Proof.
  split.
  - apply constructed_well_formed.
  - apply (X8_template_path_iff_some_template_reaches string toy_similarity rag_alone
             "what are the" (1 # 2) []).
    apply constructed_well_formed.
Defined.

Lemma X9_witness :
  well_formed rag_store_two_names
  /\ takes_template_path
       (query toy_similarity rag_store_two_names stakeholders_question (1 # 2) [])
  /\ exists evs,
       snd (query toy_similarity rag_store_two_names stakeholders_question (1 # 2) [])
         = ([] ++ evs)%list
       /\ forall ev, In ev evs ->
            exists key tpl,
              In (key, tpl) (query_templates rag_store_two_names)
              /\ ev = EvRun (cypher tpl).
Proof.
  assert (Hwf : well_formed rag_store_two_names) by apply constructed_well_formed.
  assert (Hpath : takes_template_path
            (query toy_similarity rag_store_two_names stakeholders_question (1 # 2) [])).
  { eexists _, _. split; [lazy; reflexivity | reflexivity]. }
  split; [exact Hwf |]. split; [exact Hpath |].
  exact (X9_template_path_sends_catalog_query string toy_similarity
           rag_store_two_names stakeholders_question (1 # 2) [] Hwf Hpath).
Defined.

Lemma X10_witness :
  exists r tr',
    query toy_similarity rag_store_two_names unknown_question (1 # 2) [] = (Ok r, tr')
    /\ method_of r = Some (FStr "llm_fallback")
    /\ exists invoke generated evs,
         llm rag_store_two_names = Some invoke
         /\ invoke (llm_prompt unknown_question) = Ok generated
         /\ dict_get "cypher" r = Some (FStr (PyText.strip generated))
         /\ PyText.strip (PyText.strip generated) = PyText.strip generated
         /\ tr' = ([] ++ EvInvoke (llm_prompt unknown_question) :: evs)%list
         /\ (evs = [] \/ evs = [EvRun (PyText.strip generated)]).
Proof.
  eexists _, _.
  eassert (Hrun : query toy_similarity rag_store_two_names unknown_question (1 # 2) []
                  = (Ok _, _)) by (lazy; reflexivity).
  split; [exact Hrun |]. split; [reflexivity |].
  exact (X10_generated_query_is_stripped string toy_similarity rag_store_two_names
           unknown_question (1 # 2) [] _ _ Hrun eq_refl).
Defined.

Lemma X11_witness :
  well_formed rag_alone
  /\ list_available_queries rag_alone = template_keys rag_alone
  /\ exists key score tpl,
       find_best_template toy_similarity rag_alone unknown_question (1 # 2)
         = Ok (key, score, tpl)
       /\ In key (list_available_queries rag_alone)
       /\ dict_get key (query_templates rag_alone) = Some tpl.
Proof.
  split.
  - apply constructed_well_formed.
  - apply (X11_best_key_is_an_available_query string toy_similarity rag_alone
             unknown_question (1 # 2)).
    apply constructed_well_formed.
Defined.

Lemma X12_witness :
  exists r tr',
    query toy_similarity rag_alone unknown_question (1 # 2) [] = (Ok r, tr')
    /\ find_best_template toy_similarity rag_alone unknown_question default_threshold
       = Ok ("list all stakeholders", 0, first_template)
    /\ method_of r = Some (FStr "no_match")
    /\ dict_get "template_used" r = Some (FStr "list all stakeholders")
    /\ dict_get "similarity" r = Some (FScore 0)
    /\ dict_get "cypher" r = None
    /\ tr' = [].
Proof.
  eexists _, _.
  eassert (Hrun : query toy_similarity rag_alone unknown_question (1 # 2) []
                  = (Ok _, _)) by (lazy; reflexivity).
  assert (Hbest : find_best_template toy_similarity rag_alone unknown_question
                    default_threshold
                  = Ok ("list all stakeholders", 0, first_template))
    by reflexivity.
  split; [exact Hrun |]. split; [exact Hbest |]. split; [reflexivity |].
  exact (proj1 (proj2 (proj2
           (X12_provenance_of_a_response string toy_similarity rag_alone
              unknown_question (1 # 2) [] _ _ _ _ _ Hrun Hbest))) eq_refl).
Defined.

(** ** The console *)

Section ConsoleFacts.

Variable embedding : Type.
Variable cosine_similarity : embedding -> embedding -> Q.

Implicit Types (self : FastHybridRAG embedding).

(** One round of the loop: it ends the loop on a quit word, without any
    call, and continues it in every other case. *)
Lemma session_round self (c : console) (tr : list event) :
  exists t',
    try_except (session_body cosine_similarity self c) (fun _ => ret LoopContinue) tr
    = (Ok (if is_quit c then LoopBreak else LoopContinue), t')
    /\ (is_quit c = true -> t' = tr).
Proof.
  destruct c as [line |].
  - unfold session_body, is_quit, try_except, bind, lift, input, ret, print_entry.
    destruct (existsb (String.eqb (PyText.lower (PyText.strip line)))
                ["quit"; "exit"; "q"]) eqn:Hq.
    + exists tr. split; reflexivity.
    + cbn beta iota.
      destruct (String.eqb (PyText.lower (PyText.strip line)) "help");
        [eexists; split; [reflexivity | discriminate] |].
      destruct (String.eqb (PyText.strip line) "");
        [eexists; split; [reflexivity | discriminate] |].
      unfold query_default.
      destruct (query cosine_similarity self (PyText.strip line) default_threshold tr)
        as [[r | e] t1];
        [| eexists; split; [reflexivity | discriminate]].
      cbn beta iota. unfold dict_getitem, bind, lift, ret.
      repeat match goal with
             | |- context [dict_get ?k r] => destruct (dict_get k r)
             | |- context [is_template_method ?m] => destruct (is_template_method m)
             | |- context [dict_contains ?k r] => destruct (dict_contains k r)
             end;
        eexists; (split; [reflexivity | discriminate]).
  - exists tr. split; [reflexivity | discriminate].
Qed.

Lemma bind_ok {A B} (m : M A) (k : A -> M B) (tr t : list event) (a : A) :
  m tr = (Ok a, t) -> bind m k tr = k a t.
Proof. intros H. unfold bind. rewrite H. reflexivity. Qed.

Lemma idle_round self (c : console) (tr : list event) :
  is_idle c = true ->
  try_except (session_body cosine_similarity self c) (fun _ => ret LoopContinue) tr
  = (Ok LoopContinue, tr).
Proof.
  destruct c as [line |]; [| reflexivity].
  unfold is_idle, is_quit. intros H.
  apply andb_prop in H as [Hq Hidle]. apply negb_true_iff in Hq.
  unfold session_body, try_except, bind, lift, input, ret. cbn beta iota.
  rewrite Hq.
  destruct (String.eqb (PyText.lower (PyText.strip line)) "help"); [reflexivity |].
  simpl in Hidle. rewrite Hidle. reflexivity.
Qed.

(** X13: [interactive_session] never raises, whatever the instance and the
    lines typed, and it ends exactly when one of the lines is quit, exit or
    q (in any letter case, with white space around it).  With any other
    script it keeps waiting for input; in particular the end of the input
    does not end it. *)
Theorem X13_session_ends_only_on_quit self (inputs : list console)
    (tr : list event) :
  exists tr',
    interactive_session cosine_similarity self inputs tr
    = (Ok (if existsb is_quit inputs then Finished else AwaitingInput), tr').
Proof.
  revert tr. induction inputs as [| c rest IH]; intro tr.
  - eexists. reflexivity.
  - destruct (session_round self c tr) as (t1 & Hround & _).
    cbn [interactive_session existsb].
    rewrite (bind_ok _ _ _ _ _ Hround).
    destruct (is_quit c); simpl.
    + eexists. reflexivity.
    + apply IH.
Qed.

(** X14: a quit word makes no call and nothing typed after it is read: the
    session on a script with a quit word in it ends with the trace of the
    lines before that word. *)
Theorem X14_nothing_after_quit_is_read self (pre post : list console)
    (c : console) (tr : list event) :
  is_quit c = true ->
  interactive_session cosine_similarity self (pre ++ c :: post)%list tr
  = (Ok Finished, snd (interactive_session cosine_similarity self pre tr)).
Proof.
  intros Hq. revert tr. induction pre as [| a pre IH]; intro tr.
  - destruct (session_round self c tr) as (t1 & Hround & Hsame).
    rewrite Hq in Hround. rewrite (Hsame Hq) in Hround.
    cbn [interactive_session app].
    rewrite (bind_ok _ _ _ _ _ Hround). reflexivity.
  - destruct (session_round self a tr) as (t1 & Hround & _).
    cbn [interactive_session app].
    rewrite !(bind_ok _ _ _ _ _ Hround).
    destruct (is_quit a); [reflexivity | apply IH].
Qed.

(** X15: a blank line, the word help and the end of the input cause no call
    and leave the session as it was: taking them out of the script changes
    neither the status nor the trace. *)
Theorem X15_idle_lines_change_nothing self (inputs : list console)
    (tr : list event) :
  interactive_session cosine_similarity self
    (filter (fun c => negb (is_idle c)) inputs) tr
  = interactive_session cosine_similarity self inputs tr.
Proof.
  revert tr. induction inputs as [| c rest IH]; intro tr; [reflexivity |].
  cbn [filter]. destruct (is_idle c) eqn:Hidle; cbn [negb].
  - rewrite IH. cbn [interactive_session].
    rewrite (bind_ok _ _ _ _ _ (idle_round self c tr Hidle)). reflexivity.
  - cbn [interactive_session].
    destruct (session_round self c tr) as (t1 & Hround & _).
    rewrite !(bind_ok _ _ _ _ _ Hround).
    destruct (is_quit c); [reflexivity | apply IH].
Qed.

(** The entries that the console prints are there in every response. *)
Lemma printed_entries_present self (question : string) (threshold : Q)
    (tr tr' : list event) (r : response) :
  query cosine_similarity self question threshold tr = (Ok r, tr') ->
  (exists a, dict_get "answer" r = Some a)
  /\ (exists m,
         dict_get "method" r = Some m
         /\ (is_template_method m = true ->
             exists k, dict_get "template_used" r = Some k))
  /\ (dict_contains "cypher" r = true -> exists c, dict_get "cypher" r = Some c).
Proof.
  intros Hrun.
  query_cases cosine_similarity self question threshold tr Hrun;
    try discriminate Hrun; injection Hrun as <- <-;
    (split; [eexists; reflexivity |]);
    (split; [eexists; split;
               [reflexivity | intro H; first [discriminate H | eexists; reflexivity]] |]);
    intro H; first [discriminate H | eexists; reflexivity].
Qed.

(** What the console does with a response: the lookups succeed. *)
Lemma show_response_ok self (question : string) (tr tr' : list event) (r : response) :
  query cosine_similarity self question default_threshold tr = (Ok r, tr') ->
  bind (print_entry r "answer") (fun _ =>
  bind (lift (dict_getitem r "method")) (fun method =>
  bind (if is_template_method method
        then print_entry r "template_used" else ret tt) (fun _ =>
  bind (if dict_contains "cypher" r
        then print_entry r "cypher" else ret tt) (fun _ =>
  ret LoopContinue)))) tr'
  = (Ok LoopContinue, tr').
Proof.
  intros Hrun.
  destruct (printed_entries_present self question default_threshold tr tr' r Hrun)
    as ((a & Ha) & (m & Hm & Htpl) & Hc).
  unfold print_entry, bind, lift, ret, dict_getitem.
  rewrite Ha, Hm.
  destruct (is_template_method m).
  - destruct (Htpl eq_refl) as (k & ->).
    destruct (dict_contains "cypher" r); [| reflexivity].
    destruct (Hc eq_refl) as (c & ->). reflexivity.
  - destruct (dict_contains "cypher" r); [| reflexivity].
    destruct (Hc eq_refl) as (c & ->). reflexivity.
Qed.

(** X16: on a constructed instance, a line that is neither a quit word, nor
    help, nor blank is passed to [query] once, without the white space
    around it and with the default threshold; the calls of the round are
    those of that one query, and the code that prints the response finds
    every entry it reads, so that the round ends without an exception. *)
Theorem X16_question_line_is_one_query self (line : string) (tr : list event) :
  well_formed self ->
  is_question (Typed line) = true ->
  exists r tr',
    query cosine_similarity self (PyText.strip line) default_threshold tr = (Ok r, tr')
    /\ session_body cosine_similarity self (Typed line) tr = (Ok LoopContinue, tr').
Proof.
  intros Hwf Hquestion.
  destruct (find_best_template_returns embedding cosine_similarity self
              (PyText.strip line) default_threshold Hwf)
    as (i & key & score & tpl & Hbest & _).
  destruct (query_decides embedding cosine_similarity self (PyText.strip line)
              default_threshold tr key score tpl Hbest) as [[_ Hp] | [_ Hp]];
    destruct Hp as (r & tr' & Hrun & _);
    exists r, tr'; (split; [exact Hrun |]);
    unfold is_question, is_idle, is_quit in Hquestion;
    apply andb_prop in Hquestion as [Hq Hidle];
    apply negb_true_iff in Hq; rewrite Hq in Hidle; simpl in Hidle;
    apply negb_true_iff in Hidle; apply orb_false_elim in Hidle as [Hhelp Hblank];
    unfold session_body;
    rewrite (bind_ok _ _ tr tr line) by reflexivity;
    cbn beta zeta; rewrite Hq, Hhelp, Hblank;
    unfold query_default;
    rewrite (bind_ok _ _ _ _ _ Hrun);
    exact (show_response_ok self _ _ _ _ Hrun).
Qed.

(** X17: option 3 of [main], when the constructor has returned an instance
    with its invariant.  The line typed as the question is passed to [query]
    as it is: the white space around it is kept, and a blank line is a
    question like any other.  The run makes that one query and comes to its
    end without an exception. *)
Theorem X17_single_query_takes_the_line_as_typed
    (load : outcome (sentence_transformer embedding)) neo4j ollama
    (rag : FastHybridRAG embedding) (choice line : string) (rest : list console)
    (tr : list event) :
  __init__ "llama2" load neo4j ollama = Started rag ->
  well_formed rag ->
  PyText.strip choice = "3" ->
  exists r tr',
    query cosine_similarity rag line default_threshold tr = (Ok r, tr')
    /\ main cosine_similarity load neo4j ollama
         (Typed choice :: Typed line :: rest) tr
       = (Ok Finished, tr').
Proof.
  intros Hinit Hwf Hchoice.
  destruct (find_best_template_returns embedding cosine_similarity rag line
              default_threshold Hwf) as (i & key & score & tpl & Hbest & _).
  assert (Hrun : exists r tr',
             query cosine_similarity rag line default_threshold tr = (Ok r, tr')).
  { destruct (query_decides embedding cosine_similarity rag line default_threshold tr
                key score tpl Hbest) as [[_ Hp] | [_ Hp]];
      destruct Hp as (r & tr' & Hr & _); eauto. }
  destruct Hrun as (r & tr' & Hrun).
  exists r, tr'. split; [exact Hrun |].
  destruct (printed_entries_present rag line default_threshold tr tr' r Hrun)
    as ((a & Ha) & (m & Hm & _) & Hc).
  unfold main. rewrite Hinit. unfold try_except.
  rewrite (bind_ok _ _ tr tr choice) by reflexivity.
  cbn beta zeta. rewrite Hchoice. cbn [String.eqb Ascii.eqb Bool.eqb].
  rewrite (bind_ok _ _ tr tr line) by reflexivity.
  unfold query_default. rewrite (bind_ok _ _ _ _ _ Hrun).
  unfold print_entry, bind, lift, ret, dict_getitem. rewrite Ha, Hm.
  destruct (dict_contains "cypher" r); [| reflexivity].
  destruct (Hc eq_refl) as (c & ->). reflexivity.
Qed.

Lemma run_samples_trace self (questions : list string) (tr : list event) :
  well_formed self ->
  run_samples cosine_similarity self questions tr
  = (Ok tt,
     fold_left
       (fun t question =>
          snd (query cosine_similarity self question default_threshold t))
       questions tr).
Proof.
  intros Hwf. revert tr. induction questions as [| q rest IH]; intro tr.
  - reflexivity.
  - destruct (find_best_template_returns embedding cosine_similarity self q
                default_threshold Hwf) as (i & key & score & tpl & Hbest & _).
    assert (Hrun : exists r tr',
               query cosine_similarity self q default_threshold tr = (Ok r, tr')).
    { destruct (query_decides embedding cosine_similarity self q default_threshold tr
                  key score tpl Hbest) as [[_ Hp] | [_ Hp]];
        destruct Hp as (r & tr' & Hr & _); eauto. }
    destruct Hrun as (r & tr' & Hrun).
    destruct (printed_entries_present self q default_threshold tr tr' r Hrun)
      as ((a & Ha) & (m & Hm & _) & _).
    cbn [run_samples fold_left]. unfold query_default.
    rewrite (bind_ok _ _ _ _ _ Hrun), Hrun. cbn [snd].
    unfold print_entry, bind, lift, ret, dict_getitem. rewrite Ha, Hm.
    apply IH.
Qed.

(** X18: option 2 of [main], when the constructor has returned an instance
    with its invariant, asks the five sample questions, in the order of the
    list, each once and with the default threshold, and then comes to its end
    without an exception; what is typed after the choice is not read. *)
Theorem X18_sample_mode_asks_the_five_questions
    (load : outcome (sentence_transformer embedding)) neo4j ollama
    (rag : FastHybridRAG embedding) (choice : string) (rest : list console)
    (tr : list event) :
  __init__ "llama2" load neo4j ollama = Started rag ->
  well_formed rag ->
  PyText.strip choice = "2" ->
  main cosine_similarity load neo4j ollama (Typed choice :: rest) tr
  = (Ok Finished,
     fold_left
       (fun t question =>
          snd (query cosine_similarity rag question default_threshold t))
       [ "who are the stakeholders";
         "what are the requirements";
         "show all features";
         "what domain knowledge exists";
         "who has authentication expertise" ] tr).
Proof.
  intros Hinit Hwf Hchoice.
  unfold main. rewrite Hinit. unfold try_except.
  rewrite (bind_ok _ _ tr tr choice) by reflexivity.
  cbn beta zeta. rewrite Hchoice. cbn [String.eqb Ascii.eqb Bool.eqb].
  rewrite (bind_ok _ _ _ _ _ (run_samples_trace rag sample_questions tr Hwf)).
  reflexivity.
Qed.


End ConsoleFacts.

Example session_script :
  interactive_session toy_similarity rag_store_two_names
    [ Typed "help"; Typed "  "; EndOfInput;
      Typed (" who are the stakeholders" ++ PyText.nl);
      Typed " QUIT "; Typed "zzz" ] []
  = (Ok Finished, [EvRun (cypher stakeholders_template)]).
Proof. reflexivity. Qed.

Lemma X14_witness :
  is_quit (Typed " Exit ") = true
  /\ interactive_session toy_similarity rag_store_two_names
       ([Typed "who are the stakeholders"] ++ Typed " Exit " :: [Typed "zzz"])%list []
     = (Ok Finished,
        snd (interactive_session toy_similarity rag_store_two_names
               [Typed "who are the stakeholders"] [])).
Proof.
  split; [reflexivity |].
  apply (X14_nothing_after_quit_is_read string toy_similarity rag_store_two_names
           [Typed "who are the stakeholders"] [Typed "zzz"] (Typed " Exit ") []).
  reflexivity.
Defined.

Lemma X16_witness :
  well_formed rag_store_two_names
  /\ is_question (Typed "  who are the stakeholders ") = true
  /\ exists r tr',
       query toy_similarity rag_store_two_names
         (PyText.strip "  who are the stakeholders ") default_threshold [] = (Ok r, tr')
       /\ session_body toy_similarity rag_store_two_names
            (Typed "  who are the stakeholders ") [] = (Ok LoopContinue, tr').
Proof.
  assert (Hwf : well_formed rag_store_two_names) by apply constructed_well_formed.
  split; [exact Hwf |]. split; [reflexivity |].
  apply (X16_question_line_is_one_query string toy_similarity rag_store_two_names
           "  who are the stakeholders " [] Hwf).
  reflexivity.
Defined.

Lemma toy_init (neo4j : option (string -> outcome (list row)))
    (ollama : option (string -> outcome string)) :
  __init__ "llama2" (Ok toy_model) neo4j ollama = Started (toy_rag neo4j ollama).
Proof. apply (init_returns string "llama2" toy_model). reflexivity. Qed.

Lemma X17_witness :
  __init__ "llama2" (Ok toy_model) (Some (store_answering (Ok two_names))) None
    = Started rag_store_only
  /\ well_formed rag_store_only
  /\ PyText.strip " 3 " = "3"
  /\ exists r tr',
       query toy_similarity rag_store_only " " default_threshold [] = (Ok r, tr')
       /\ main toy_similarity (Ok toy_model) (Some (store_answering (Ok two_names))) None
            (Typed " 3 " :: Typed " " :: []) []
          = (Ok Finished, tr').
Proof.
  assert (Hinit : __init__ "llama2" (Ok toy_model)
                    (Some (store_answering (Ok two_names))) None
                  = Started rag_store_only) by apply toy_init.
  assert (Hwf : well_formed rag_store_only) by apply constructed_well_formed.
  split; [exact Hinit |]. split; [exact Hwf |]. split; [reflexivity |].
  exact (X17_single_query_takes_the_line_as_typed string toy_similarity
           (Ok toy_model) (Some (store_answering (Ok two_names))) None
           rag_store_only " 3 " " " [] [] Hinit Hwf eq_refl).
Defined.

Lemma X18_witness :
  __init__ "llama2" (Ok toy_model) (Some (store_answering (Ok two_names))) None
    = Started rag_store_only
  /\ well_formed rag_store_only
  /\ PyText.strip "2" = "2"
  /\ main toy_similarity (Ok toy_model) (Some (store_answering (Ok two_names))) None
       (Typed "2" :: [Typed "never read"]) []
     = (Ok Finished,
        fold_left
          (fun t question =>
             snd (query toy_similarity rag_store_only question default_threshold t))
          [ "who are the stakeholders";
            "what are the requirements";
            "show all features";
            "what domain knowledge exists";
            "who has authentication expertise" ] []).
Proof.
  assert (Hinit : __init__ "llama2" (Ok toy_model)
                    (Some (store_answering (Ok two_names))) None
                  = Started rag_store_only) by apply toy_init.
  assert (Hwf : well_formed rag_store_only) by apply constructed_well_formed.
  split; [exact Hinit |]. split; [exact Hwf |]. split; [reflexivity |].
  exact (X18_sample_mode_asks_the_five_questions string toy_similarity
           (Ok toy_model) (Some (store_answering (Ok two_names))) None
           rag_store_only "2" [Typed "never read"] [] Hinit Hwf eq_refl).
Defined.


Example sample_mode_trace :
  main toy_similarity (Ok toy_model) (Some (store_answering (Ok two_names))) None
    [Typed "2"] []
  = (Ok Finished,
     [ EvRun "MATCH (s:Stakeholder) RETURN s.name ORDER BY s.name";
       EvRun "MATCH (g:Goal) RETURN g.name, g.description ORDER BY g.name";
       EvRun "MATCH (f:Feature) RETURN f.id, f.name, f.description ORDER BY f.name";
       EvRun "MATCH (dk:Domain_Knowledge) RETURN dk.area, dk.level, dk.description ORDER BY dk.area" ]).
Proof. reflexivity. Qed.

Example main_without_model :
  main toy_similarity (Raised "no such model") None None [Typed "1"; Typed "quit"] []
  = (Ok (Exited 1), []).
Proof. reflexivity. Qed.

(** ** The callers of the router *)

Section Callers.

Variable embedding : Type.
Variable cosine_similarity : embedding -> embedding -> Q.

Implicit Types (self : FastHybridRAG embedding).

(** X19: the entries the web handler reads with [get].  No response of
    [query] has an entry "response" or "confidence", so the handler's
    [get('response', 'No response generated')] and [get('confidence', 0)]
    return their defaults for every question, while [get('method',
    'unknown')] returns the method of the response; the text of the router is
    under "answer", which is another key. *)
Theorem X19_web_handler_reads_defaults self (question : string) (threshold : Q)
    (tr tr' : list event) (r : response) :
  query cosine_similarity self question threshold tr = (Ok r, tr') ->
  (forall default, dict_get_or "response" default r = default)
  /\ (forall default, dict_get_or "confidence" default r = default)
  /\ (exists m,
         dict_get_or "method" (FStr "unknown") r = FStr m /\ m <> "unknown")
  /\ (exists a,
         dict_get "answer" r = Some (FStr a)
         /\ dict_get_or "response" (FStr "No response generated") r
            = FStr "No response generated").
Proof.
  intros Hrun.
  query_cases cosine_similarity self question threshold tr Hrun;
    try discriminate Hrun; injection Hrun as <- <-;
    (split; [reflexivity |]); (split; [reflexivity |]);
    (split; [eexists; split; [reflexivity | discriminate] |]);
    eexists; split; reflexivity.
Qed.

(** X20: the constructor.  It leaves the process with status 1 exactly when
    loading the embedding model raises or encoding the template texts
    raises; a failed connection to the store or to Ollama does not end it.
    Otherwise it returns an instance with the catalog of 21 templates, its
    21 keys in the order of the catalog, and as embeddings what the one call
    of [encode] returned; [neo4j_available] tells whether the connection to
    the store succeeded.  When that call returned one embedding per
    template, the instance has the invariant and the matcher returns on it
    for every question. *)
Theorem X20_constructor_exits_or_builds (name : string)
    (load : outcome (sentence_transformer embedding)) neo4j ollama :
  (__init__ name load neo4j ollama = SystemExit 1
   <-> ((exists msg, load = Raised msg)
        \/ exists model msg,
             load = Ok model
             /\ encode_texts model (template_texts _setup_query_templates)
                = Raised msg))
  /\ forall model embeddings,
       load = Ok model ->
       encode_texts model (template_texts _setup_query_templates) = Ok embeddings ->
       exists self,
         __init__ name load neo4j ollama = Started self
         /\ length (query_templates self) = 21%nat
         /\ template_keys self = dict_keys (query_templates self)
         /\ template_embeddings self = embeddings
         /\ embedding_model self = encode_question model
         /\ (neo4j_available self = true <-> neo4j <> None)
         /\ graph self = neo4j
         /\ llm self = ollama
         /\ (length embeddings = 21%nat ->
             well_formed self
             /\ forall question threshold,
                  exists key score tpl,
                    find_best_template cosine_similarity self question threshold
                    = Ok (key, score, tpl)).
Proof.
  pose proof (init_steps embedding name load neo4j ollama) as Hsteps.
  split.
  - split.
    + intros Hexit. rewrite Hexit in Hsteps.
      destruct load as [model | msg]; [| left; eauto].
      destruct (encode_texts model (template_texts _setup_query_templates))
        as [embeddings | msg] eqn:Henc; [discriminate |].
      right. exists model, msg. split; [reflexivity | exact Henc].
    + intros [(msg & ->) | (model & msg & -> & Henc)];
        [| rewrite Henc in Hsteps]; exact Hsteps.
  - intros model embeddings -> Henc. rewrite Henc in Hsteps.
    eexists. split; [exact Hsteps |].
    split; [reflexivity |]. split; [reflexivity |]. split; [reflexivity |].
    split; [reflexivity |].
    split; [destruct neo4j; simpl; split; intro H; congruence |].
    split; [reflexivity |]. split; [reflexivity |].
    intros Hlen.
    assert (Hwf : well_formed
                    (mkRAG name (encode_question model) neo4j
                       (match neo4j with Some _ => true | None => false end)
                       ollama _setup_query_templates embeddings
                       (dict_keys _setup_query_templates)))
      by (eapply init_well_formed; [exact Hsteps | exact Hlen]).
    split; [exact Hwf |].
    intros question threshold.
    destruct (find_best_template_returns embedding cosine_similarity _ question
                threshold Hwf) as (i & key & score & tpl & Hbest & _).
    eauto.
Qed.

End Callers.

Lemma X19_witness :
  exists r tr',
    query toy_similarity rag_store_two_names stakeholders_question (1 # 2) [] = (Ok r, tr')
    /\ dict_get "answer" r
       = Some (FStr ("Found 2 result(s):" ++ PyText.nl ++ "Ann | 41" ++ PyText.nl ++ "Bob"))
    /\ dict_get_or "response" (FStr "No response generated") r
       = FStr "No response generated"
    /\ dict_get_or "method" (FStr "unknown") r = FStr "template".
Proof.
  eexists _, _.
  eassert (Hrun : query toy_similarity rag_store_two_names stakeholders_question
                    (1 # 2) [] = (Ok _, _)) by (lazy; reflexivity).
  destruct (X19_web_handler_reads_defaults string toy_similarity rag_store_two_names
              stakeholders_question (1 # 2) [] _ _ Hrun) as (Hresp & _ & _ & _).
  split; [exact Hrun |]. split; [reflexivity |].
  split; [apply Hresp | reflexivity].
Defined.

Lemma X20_witness :
  encode_texts toy_model (template_texts _setup_query_templates)
    = Ok (map toy_encode (template_texts _setup_query_templates))
  /\ exists self,
       __init__ "llama2" (Ok toy_model) None None = Started self
       /\ length (query_templates self) = 21%nat
       /\ template_keys self = dict_keys (query_templates self)
       /\ template_embeddings self
          = map toy_encode (template_texts _setup_query_templates)
       /\ neo4j_available self = false
       /\ well_formed self.
Proof.
  split; [reflexivity |].
  destruct (X20_constructor_exits_or_builds string toy_similarity "llama2"
              (Ok toy_model) None None) as (_ & Hbuild).
  destruct (Hbuild toy_model _ eq_refl eq_refl)
    as (self & Hinit & Hcat & Hkeys & Hemb & _ & Havail & _ & _ & Hwf).
  exists self. split; [exact Hinit |]. split; [exact Hcat |].
  split; [exact Hkeys |]. split; [exact Hemb |].
  split.
  - destruct (neo4j_available self) eqn:E; [| reflexivity].
    exfalso. apply (proj1 Havail); reflexivity.
  - apply Hwf. rewrite length_map. reflexivity.
Defined.
